(** * PyDM: EPICS backend selector and multi-axis view box

    A shallow embedding of two modules of PyDM:

    - [pydm/data_plugins/epics_plugin.py], the import-time shim that binds
      the name [EPICSPlugin] to one of two channel-access backends;
    - [pydm/widgets/multi_axis_viewbox.py], the [MultiAxisViewBox] event
      handlers and its zoom-history navigation.

    Python statements are embedded in a state-and-exception monad: a
    computation takes the interpreter state it runs in and returns the
    state it leaves behind together with either a raised exception or a
    value.  Calls into code that lives outside the two modules (Qt, the
    plotting library, the import machinery) are recorded, in order, in a
    trace held by the state. *)

From Stdlib Require Import ZArith List Lia Bool.
From stdpp Require Import base gmap sets list strings.

Local Open Scope string_scope.
Local Open Scope Z_scope.

(** ** Python exceptions and the statement monad *)

(** The exception classes the two modules can meet.  [ModuleNotFoundError]
    is a subclass of [ImportError]; [OtherException] stands for any class
    that is not a subclass of [ImportError] and is not [IndexError]. *)
Inductive PyExc : Type :=
  | ImportError
  | ModuleNotFoundError
  | IndexError
  | OtherException.

#[global] Instance PyExc_eq_dec : EqDecision PyExc.
Proof. solve_decision. Defined.

(** [isinstance(e, ImportError)], the test an [except ImportError:] clause
    performs. *)
Definition isinstance_ImportError (e : PyExc) : bool :=
  match e with
  | ImportError | ModuleNotFoundError => true
  | IndexError | OtherException => false
  end.

Module Py.

(** A statement run in state [S]: the final state, and an exception or
    a value. *)
Definition M (S A : Type) : Type := S -> S * (PyExc + A).

Definition ret {S A} (a : A) : M S A := fun s => (s, inr a).

Definition raise {S A} (e : PyExc) : M S A := fun s => (s, inl e).

Definition bind {S A B} (m : M S A) (k : A -> M S B) : M S B :=
  fun s =>
    match m s with
    | (s', inl e) => (s', inl e)
    | (s', inr a) => k a s'
    end.

Definition get {S} : M S S := fun s => (s, inr s).

Definition modify {S} (f : S -> S) : M S unit := fun s => (f s, inr tt).

(** [try: body / except ImportError: handler].  The handler runs in the
    state the body left behind; any other exception passes through. *)
Definition try_except_ImportError {S A} (body handler : M S A) : M S A :=
  fun s =>
    match body s with
    | (s', inl e) =>
        if isinstance_ImportError e then handler s' else (s', inl e)
    | ok => ok
    end.

(** [for x in xs: body x] *)
Fixpoint for_each {S A} (xs : list A) (body : A -> M S unit) : M S unit :=
  match xs with
  | [] => ret tt
  | x :: xs' => bind (body x) (fun _ => for_each xs' body)
  end.

Definition final {S A} (r : S * (PyExc + A)) : S := fst r.
Definition outcome {S A} (r : S * (PyExc + A)) : PyExc + A := snd r.

End Py.

Declare Scope py_scope.
Delimit Scope py_scope with py.
Notation "x <- m ;; k" := (Py.bind m (fun x => k))
  (at level 100, m at next level, right associativity) : py_scope.
Notation "m ;;; k" := (Py.bind m (fun _ => k))
  (at level 100, right associativity) : py_scope.

(** ** [pydm/data_plugins/epics_plugin.py] *)

Module EpicsPlugin.

(** The two sibling modules the shim imports from, and the plugin class
    each of them defines. *)
Inductive PluginModule : Type := psp_plugin | pyepics_plugin.

Inductive PluginClass : Type := PSPPlugin | PyEPICSPlugin.

#[global] Instance PluginModule_eq_dec : EqDecision PluginModule.
Proof. solve_decision. Defined.

#[global] Instance PluginClass_eq_dec : EqDecision PluginClass.
Proof. solve_decision. Defined.

#[global] Instance PluginClass_countable : Countable PluginClass.
Proof.
  refine (inj_countable'
            (fun c => match c with PSPPlugin => true | PyEPICSPlugin => false end)
            (fun b => if b then PSPPlugin else PyEPICSPlugin) _).
  by intros [].
Defined.

Definition class_of (m : PluginModule) : PluginClass :=
  match m with
  | psp_plugin => PSPPlugin
  | pyepics_plugin => PyEPICSPlugin
  end.

(** What importing a plugin module does in a given installation: it
    raises, or it defines its class with some attribute dictionary. *)
Inductive ImportOutcome : Type :=
  | Raises (e : PyExc)
  | Defines (class_dict : gmap string string).

(** The process the shim is loaded in: [os.environ] and the outcome of
    importing each plugin module. *)
Record Process : Type := {
  environ : gmap string string;
  importing : PluginModule -> ImportOutcome
}.

(** [os.getenv(name)]: [None] when the variable is unset. *)
Definition getenv (p : Process) (name : string) : option string :=
  environ p !! name.

(** A backend is installed when importing its module returns. *)
Definition installed (p : Process) (m : PluginModule) : bool :=
  match importing p m with
  | Defines _ => true
  | Raises _ => false
  end.

(** Interpreter state while the shim's body runs: the imports attempted
    so far, oldest first, and the class objects created, each with its
    attribute dictionary.  A [PluginClass] value is a reference into
    [classes]: every name bound to it sees the same dictionary. *)
Record Interp : Type := {
  attempted : list PluginModule;
  classes : gmap PluginClass (gmap string string)
}.

Definition fresh : Interp := {| attempted := []; classes := ∅ |}.

(** [from .m import C] *)
Definition import_from (p : Process) (m : PluginModule)
  : Py.M Interp PluginClass :=
  fun st =>
    let st' := {| attempted := attempted st ++ [m]; classes := classes st |} in
    match importing p m with
    | Raises e => (st', inl e)
    | Defines d =>
        ({| attempted := attempted st';
            classes := <[class_of m := d]> (classes st') |},
         inr (class_of m))
    end.

(** [C.attr = v] on a class object. *)
Definition setattr (c : PluginClass) (attr v : string) : Py.M Interp unit :=
  Py.modify (fun st =>
    {| attempted := attempted st;
       classes := <[c := <[attr := v]> (default ∅ (classes st !! c))]> (classes st) |}).

(** [C.attr] read on a class object. *)
Definition getattr (st : Interp) (c : PluginClass) (attr : string)
  : option string :=
  classes st !! c ≫= fun d => d !! attr.

(** The module's globals once its body has run to the end. *)
Record Globals : Type := {
  EPICS_LIB : option string;
  EPICSPlugin : PluginClass
}.

(** The body of [epics_plugin.py]. *)
Definition load (p : Process) : Py.M Interp Globals :=
  (let EPICS_LIB := getenv p "PYDM_EPICS_LIB" in
   EPICSPlugin <-
     (if bool_decide (EPICS_LIB = Some "pyepics") then
        import_from p pyepics_plugin
      else if bool_decide (EPICS_LIB = Some "pyca") then
        import_from p psp_plugin
      else
        Py.try_except_ImportError
          (import_from p psp_plugin)
          (import_from p pyepics_plugin)) ;;
   setattr EPICSPlugin "protocol" "ca" ;;;
   Py.ret {| EPICS_LIB := EPICS_LIB; EPICSPlugin := EPICSPlugin |})%py.

(** Running the shim in a fresh interpreter. *)
Definition run (p : Process) : Interp * (PyExc + Globals) := load p fresh.

(** The class [EPICSPlugin] is bound to, when the load returned. *)
Definition bound (r : Interp * (PyExc + Globals)) : option PluginClass :=
  match Py.outcome r with
  | inr g => Some (EPICSPlugin g)
  | inl _ => None
  end.

(** The exception that left the module body, if one did. *)
Definition raised (r : Interp * (PyExc + Globals)) : option PyExc :=
  match Py.outcome r with
  | inl e => Some e
  | inr _ => None
  end.

(** The module load ends in an unhandled import error. *)
Definition raises_import_error (r : Interp * (PyExc + Globals)) : bool :=
  match raised r with
  | Some e => isinstance_ImportError e
  | None => false
  end.

(** A process with the given value of [PYDM_EPICS_LIB]. *)
Definition process (lib : option string)
    (psp pyepics : ImportOutcome) : Process :=
  {| environ := match lib with
                | Some v => {[ "PYDM_EPICS_LIB" := v ]}
                | None => ∅
                end;
     importing := fun m => match m with
                           | psp_plugin => psp
                           | pyepics_plugin => pyepics
                           end |}.

(** [PYDM_EPICS_LIB] is set to something other than the two documented
    values. *)
Definition unsupported_override (p : Process) : Prop :=
  exists v, getenv p "PYDM_EPICS_LIB" = Some v
            /\ v <> "pyepics" /\ v <> "pyca".

(** Neither backend is installed. *)
Definition no_backend (p : Process) : Prop :=
  installed p psp_plugin = false /\ installed p pyepics_plugin = false.

(** Importing a backend that is not installed fails with an
    [ImportError] (or a subclass), never with another exception. *)
Definition missing_is_ImportError (p : Process) : Prop :=
  forall m e, importing p m = Raises e -> isinstance_ImportError e = true.

(** The backends the selected branch tries are all missing: the named
    one under an explicit override, both otherwise. *)
Definition branch_backends_missing (p : Process) : bool :=
  if bool_decide (getenv p "PYDM_EPICS_LIB" = Some "pyepics") then
    negb (installed p pyepics_plugin)
  else if bool_decide (getenv p "PYDM_EPICS_LIB" = Some "pyca") then
    negb (installed p psp_plugin)
  else
    negb (installed p psp_plugin) && negb (installed p pyepics_plugin).

(** The same process with [PYDM_EPICS_LIB] removed from the
    environment. *)
Definition unset_lib (p : Process) : Process :=
  {| environ := delete "PYDM_EPICS_LIB" (environ p);
     importing := importing p |}.

End EpicsPlugin.

(** ** [pydm/widgets/multi_axis_viewbox.py] *)

Module MultiAxisViewBox.

(** [seq[i]] on a Python list: indices from [-len] to [len - 1] are
    valid, negative ones count from the end; [None] is [IndexError]. *)
Definition py_getitem {A} (l : list A) (i : Z) : option A :=
  let n := Z.of_nat (length l) in
  if (0 <=? i) && (i <? n) then l !! Z.to_nat i
  else if (- n <=? i) && (i <? 0) then l !! Z.to_nat (n + i)
  else None.

(** [Qt.Key.Key_Backspace] *)
Definition Key_Backspace : Z := 0x01000003.

(** [ViewBox.XAxis] *)
Definition XAxis : Z := 0.

(** What the handler reads from a [QKeyEvent]: [ev.text()] and
    [ev.key()]. *)
Record QKeyEvent : Type := {
  text : string;
  key : Z
}.

Section Handlers.

(** View rectangles and mouse events are only passed along: their
    types are left open. *)
Context {Rect QEvent : Type}.

(** Signals emitted and calls made into the toolkit, as they appear in
    the trace.  Views other than [self] are named by an identifier;
    [Call_linkedViewChanged view axis] is
    [view.linkedViewChanged(self, axis)]. *)
Inductive Event : Type :=
  | Emit_sigMouseDragged (ev : QEvent) (axis : option Z)
  | Emit_sigMouseWheelZoomed (ev : QEvent) (axis : option Z)
  | Emit_sigHistoryChanged (d : Z)
  | Super_wheelEvent (ev : QEvent) (axis : option Z)
  | Super_mouseDragEvent (ev : QEvent) (axis : option Z)
  | Call_enableAutoRange
  | Call_showAxRect (ax : Rect)
  | Call_setGeometry (view : positive) (rect : Rect)
  | Call_linkedViewChanged (view : positive) (axis : Z).

(** The view box and what surrounds it during one callback:
    [stackedViews] holds the live members of the weak set,
    [sceneBoundingRect] is what [self.sceneBoundingRect()] returns,
    [accepted] is the accept flag of the key event being delivered. *)
Record ViewBox : Type := {
  axHistory : list Rect;
  axHistoryPointer : Z;
  stackedViews : gset positive;
  sceneBoundingRect : Rect;
  accepted : bool;
  trace : list Event
}.

Definition set_axHistoryPointer (p : Z) (self : ViewBox) : ViewBox :=
  {| axHistory := axHistory self;
     axHistoryPointer := p;
     stackedViews := stackedViews self;
     sceneBoundingRect := sceneBoundingRect self;
     accepted := accepted self;
     trace := trace self |}.

Definition set_accepted (b : bool) (self : ViewBox) : ViewBox :=
  {| axHistory := axHistory self;
     axHistoryPointer := axHistoryPointer self;
     stackedViews := stackedViews self;
     sceneBoundingRect := sceneBoundingRect self;
     accepted := b;
     trace := trace self |}.

Definition record (e : Event) (self : ViewBox) : ViewBox :=
  {| axHistory := axHistory self;
     axHistoryPointer := axHistoryPointer self;
     stackedViews := stackedViews self;
     sceneBoundingRect := sceneBoundingRect self;
     accepted := accepted self;
     trace := trace self ++ [e] |}.

(** A signal emission or a call into the toolkit. *)
Definition call (e : Event) : Py.M ViewBox unit := Py.modify (record e).

(** [l[i]], raising [IndexError] out of range. *)
Definition getitem (l : list Rect) (i : Z) : Py.M ViewBox Rect :=
  match py_getitem l i with
  | Some r => Py.ret r
  | None => Py.raise IndexError
  end.

Definition updateStackedViews : Py.M ViewBox unit :=
  (self <- Py.get ;;
   Py.for_each (elements (stackedViews self)) (fun view =>
     self <- Py.get ;;
     call (Call_setGeometry view (sceneBoundingRect self)) ;;;
     call (Call_linkedViewChanged view XAxis)))%py.

(** The slots [__init__] connects to [sigResized], the signal the toolkit
    emits when the geometry of the view box changes. *)
Inductive Slot : Type := Slot_updateStackedViews.

Definition sigResized_slots : list Slot := [Slot_updateStackedViews].

(** What an emission of [sigResized] runs. *)
Definition on_sigResized : Py.M ViewBox unit :=
  Py.for_each sigResized_slots (fun slot =>
    match slot with
    | Slot_updateStackedViews => updateStackedViews
    end).

Definition wheelEvent (ev : QEvent) (axis : option Z)
  : Py.M ViewBox unit :=
  ((if bool_decide (axis = None) then
      call (Emit_sigMouseWheelZoomed ev axis)
    else Py.ret tt) ;;;
   call (Super_wheelEvent ev axis))%py.

Definition mouseDragEvent (ev : QEvent) (axis : option Z)
  : Py.M ViewBox unit :=
  ((if bool_decide (axis = None) then
      call (Emit_sigMouseDragged ev axis)
    else Py.ret tt) ;;;
   call (Super_mouseDragEvent ev axis))%py.

Definition scaleHistory (d : Z) : Py.M ViewBox unit :=
  (call (Emit_sigHistoryChanged d) ;;;
   self <- Py.get ;;
   if negb (Z.of_nat (length (axHistory self)) =? 0) then
     (if (d =? -1) && negb (axHistoryPointer self =? -1) then
        Py.modify (set_axHistoryPointer (axHistoryPointer self - 1))
      else if (d =? 1)
              && negb (axHistoryPointer self
                       =? Z.of_nat (length (axHistory self)) - 1) then
        Py.modify (set_axHistoryPointer (axHistoryPointer self + 1))
      else if d =? 0 then
        Py.modify (set_axHistoryPointer (-1))
      else Py.ret tt) ;;;
     self <- Py.get ;;
     if axHistoryPointer self =? -1 then
       call Call_enableAutoRange
     else
       ax <- getitem (axHistory self) (axHistoryPointer self) ;;
       call (Call_showAxRect ax)
   else Py.ret tt)%py.

Definition keyPressEvent (ev : QKeyEvent) : Py.M ViewBox unit :=
  (Py.modify (set_accepted true) ;;;
   if bool_decide (text ev = "-") then
     scaleHistory (-1)
   else if bool_decide (text ev ∈ ["+"; "="]) then
     scaleHistory 1
   else if key ev =? Key_Backspace then
     scaleHistory 0
   else
     Py.modify (set_accepted false))%py.

(** The events a run appended to the trace of the state it started
    from. *)
Definition emitted {A} (self : ViewBox) (r : ViewBox * (PyExc + A))
  : list Event :=
  drop (length (trace self)) (trace (Py.final r)).

(** The pointer selects nothing or an entry of the history. *)
Definition pointer_in_range (self : ViewBox) : Prop :=
  -1 <= axHistoryPointer self <= Z.of_nat (length (axHistory self)) - 1.

Definition is_sigHistoryChanged (e : Event) : bool :=
  match e with
  | Emit_sigHistoryChanged _ => true
  | _ => false
  end.

Definition is_mouse_signal (e : Event) : bool :=
  match e with
  | Emit_sigMouseDragged _ _ | Emit_sigMouseWheelZoomed _ _ => true
  | _ => false
  end.



(** The same call [scaleHistory(d)] made [k] times in a row. *)
Definition scaleHistory_times (k : nat) (d : Z) : Py.M ViewBox unit :=
  Py.for_each (replicate k d) scaleHistory.

(** Key presses delivered one after the other. *)
Definition keyPressEvents (evs : list QKeyEvent) : Py.M ViewBox unit :=
  Py.for_each evs keyPressEvent.

(** A view box outside any callback: nothing traced yet, no key event
    accepted. *)
Definition view_box (history : list Rect) (pointer : Z)
    (views : gset positive) (rect : Rect) : ViewBox :=
  {| axHistory := history;
     axHistoryPointer := pointer;
     stackedViews := views;
     sceneBoundingRect := rect;
     accepted := false;
     trace := [] |}.

End Handlers.

Arguments Event : clear implicits.
Arguments ViewBox : clear implicits.

End MultiAxisViewBox.

(** * Properties of the backend selector *)

Section EpicsPluginFacts.

Import EpicsPlugin.

(** Unfolds one run of the shim down to the outcomes of the imports it
    attempts. *)
Ltac run_shim p :=
  unfold run, load, Py.try_except_ImportError, Py.bind, import_from,
    setattr, Py.modify, Py.ret, bound, raised, raises_import_error,
    installed, Py.outcome, Py.final in *;
  cbn [fresh attempted classes app fst snd] in *.

(** Membership in a list written out element by element. *)
Ltac list_mem :=
  rewrite ?elem_of_cons, ?elem_of_nil; intuition (discriminate || congruence).

(** The whole behaviour of the default branch, by the outcome of the two
    imports. *)
Lemma run_default (p : Process) :
  getenv p "PYDM_EPICS_LIB" ≠ Some "pyepics" ->
  getenv p "PYDM_EPICS_LIB" ≠ Some "pyca" ->
  (attempted (Py.final (run p)), bound (run p), raised (run p)) =
  match importing p psp_plugin with
  | Defines _ => ([psp_plugin], Some PSPPlugin, None)
  | Raises e =>
      if isinstance_ImportError e then
        match importing p pyepics_plugin with
        | Defines _ => ([psp_plugin; pyepics_plugin], Some PyEPICSPlugin, None)
        | Raises e' => ([psp_plugin; pyepics_plugin], None, Some e')
        end
      else ([psp_plugin], None, Some e)
  end.
Proof.
  intros H1 H2. run_shim p.
  rewrite !bool_decide_eq_false_2 by assumption.
  destruct (importing p psp_plugin) as [e|d]; [|reflexivity].
  destruct (isinstance_ImportError e); [|reflexivity].
  destruct (importing p pyepics_plugin); reflexivity.
Qed.

(** The whole behaviour of an explicit override: one import, whose
    outcome is the outcome of the load. *)
Lemma run_override (p : Process) (m : PluginModule) :
  getenv p "PYDM_EPICS_LIB"
    = Some (match m with pyepics_plugin => "pyepics" | psp_plugin => "pyca" end) ->
  (attempted (Py.final (run p)), bound (run p), raised (run p)) =
  match importing p m with
  | Defines _ => ([m], Some (class_of m), None)
  | Raises e => ([m], None, Some e)
  end.
Proof.
  intros H. run_shim p. rewrite H.
  destruct m; cbn;
    match goal with |- context [importing p ?m] =>
      destruct (importing p m); reflexivity end.
Qed.

(** Setting an attribute on a class and reading it back through any
    reference to that class. *)
Lemma getattr_setattr (st : Interp) (c : PluginClass) (attr v : string) :
  getattr (Py.final (setattr c attr v st)) c attr = Some v.
Proof.
  unfold getattr, setattr, Py.modify, Py.final. cbn.
  rewrite lookup_insert_eq. cbn. by rewrite lookup_insert_eq.
Qed.

(** C5. With [PYDM_EPICS_LIB] unset, the first import attempted is the
    PSP plugin and, when it loads, [EPICSPlugin] is bound to [PSPPlugin]
    with nothing else attempted; the PyEPICS plugin is imported exactly
    when the PSP import raised an [ImportError], and [EPICSPlugin] is
    then bound to [PyEPICSPlugin]; any other exception of the PSP import
    leaves the module. *)
Theorem default_prefers_psp_then_pyepics (p : Process)
    (Hunset : getenv p "PYDM_EPICS_LIB" = None) :
  let r := run p in
  head (attempted (Py.final r)) = Some psp_plugin
  /\ (installed p psp_plugin = true ->
      bound r = Some PSPPlugin /\ attempted (Py.final r) = [psp_plugin])
  /\ (pyepics_plugin ∈ attempted (Py.final r) <->
      exists e, importing p psp_plugin = Raises e
                /\ isinstance_ImportError e = true)
  /\ (forall e, importing p psp_plugin = Raises e ->
                isinstance_ImportError e = true ->
                installed p pyepics_plugin = true ->
                bound r = Some PyEPICSPlugin
                /\ attempted (Py.final r) = [psp_plugin; pyepics_plugin])
  /\ (forall e, importing p psp_plugin = Raises e ->
                isinstance_ImportError e = false ->
                raised r = Some e).
Proof.
  intros r.
  assert (Hrun := run_default p). fold r in Hrun.
  rewrite Hunset in Hrun. specialize (Hrun ltac:(discriminate) ltac:(discriminate)).
  unfold installed.
  destruct (importing p psp_plugin) as [e|d] eqn:Hpsp.
  - destruct (isinstance_ImportError e) eqn:He.
    + assert (Hatt : attempted (Py.final r) = [psp_plugin; pyepics_plugin]).
      { destruct (importing p pyepics_plugin); congruence. }
      rewrite Hatt. split; [|split; [|split; [|split]]].
      * reflexivity.
      * discriminate.
      * split; [eauto | list_mem].
      * intros _ _ _ Hpy. split; [|reflexivity].
        destruct (importing p pyepics_plugin); [discriminate|congruence].
      * intros e' Heq. congruence.
    + inversion Hrun as [[Hatt Hb Hr]].
      rewrite Hatt. split; [|split; [|split; [|split]]].
      * reflexivity.
      * discriminate.
      * split; [list_mem|]. intros (e' & Heq & He'). congruence.
      * intros e' Heq. congruence.
      * intros e' Heq _. congruence.
  - inversion Hrun as [[Hatt Hb Hr]].
    rewrite Hatt. split; [|split; [|split; [|split]]].
    + reflexivity.
    + auto.
    + split; [list_mem|]. intros (e' & Heq & _). discriminate.
    + discriminate.
    + discriminate.
Qed.

(** C6. With [PYDM_EPICS_LIB] set to "pyepics" the shim imports the
    PyEPICS plugin and nothing else, and with "pyca" the PSP plugin and
    nothing else: the import's class is what [EPICSPlugin] is bound to,
    and when the import raises its exception leaves the module with no
    second import tried. *)
Theorem explicit_override_selects_without_fallback (p : Process)
    (m : PluginModule)
    (Hset : getenv p "PYDM_EPICS_LIB"
            = Some (match m with
                    | pyepics_plugin => "pyepics"
                    | psp_plugin => "pyca"
                    end)) :
  let r := run p in
  attempted (Py.final r) = [m]
  /\ match importing p m with
     | Defines _ => bound r = Some (class_of m) /\ raised r = None
     | Raises e => bound r = None /\ raised r = Some e
     end.
Proof.
  intros r. assert (Hrun := run_override p m Hset). fold r in Hrun.
  destruct (importing p m); inversion Hrun as [[Hatt Hbound Hraised]]; auto.
Qed.

(** C9. Whenever the module body runs to its end, whichever branch chose
    the backend, the class [EPICSPlugin] is bound to has its [protocol]
    attribute equal to "ca". *)
Theorem protocol_is_ca (p : Process) (st : Interp) (g : Globals)
    (Hok : run p = (st, inr g)) :
  getattr st (EPICSPlugin g) "protocol" = Some "ca".
Proof.
  revert Hok. unfold run, load, Py.bind.
  destruct (_ fresh) as [st1 [e|c]]; [discriminate|].
  destruct (setattr c "protocol" "ca" st1) as [st2 [e|[]]] eqn:Hset;
    [discriminate|].
  unfold Py.ret. intros [= <- <-]. cbn.
  change st2 with (Py.final (st2, @inr PyExc unit tt)).
  rewrite <- Hset. apply getattr_setattr.
Qed.

(** C10. A value of [PYDM_EPICS_LIB] that is neither "pyepics" nor
    "pyca" (matched exactly, case included) is handled as the unset
    case: the same imports are attempted with the same effect, the same
    class is bound and the same exception, if any, leaves the module;
    the PSP plugin is tried first, the PyEPICS plugin exactly after an
    [ImportError]; and an exception that leaves the module is one that
    an attempted import raised. *)
Theorem unrecognised_value_like_unset (p : Process) (v : string)
    (Hset : getenv p "PYDM_EPICS_LIB" = Some v)
    (Hpyepics : v <> "pyepics") (Hpyca : v <> "pyca") :
  let r := run p in
  let r0 := run (unset_lib p) in
  getenv (unset_lib p) "PYDM_EPICS_LIB" = None
  /\ Py.final r = Py.final r0
  /\ bound r = bound r0
  /\ raised r = raised r0
  /\ head (attempted (Py.final r)) = Some psp_plugin
  /\ (pyepics_plugin ∈ attempted (Py.final r) <->
      exists e, importing p psp_plugin = Raises e
                /\ isinstance_ImportError e = true)
  /\ (forall e, raised r = Some e ->
        exists m, m ∈ attempted (Py.final r) /\ importing p m = Raises e).
Proof.
  intros r r0.
  assert (Hnone : getenv (unset_lib p) "PYDM_EPICS_LIB" = None)
    by apply lookup_delete_eq.
  assert (H1 : getenv p "PYDM_EPICS_LIB" <> Some "pyepics") by congruence.
  assert (H2 : getenv p "PYDM_EPICS_LIB" <> Some "pyca") by congruence.
  assert (Hsame : Py.final r = Py.final r0 /\ bound r = bound r0
                  /\ raised r = raised r0).
  { subst r r0. run_shim p. rewrite Hnone.
    rewrite !(bool_decide_eq_false_2 _ H1), !(bool_decide_eq_false_2 _ H2).
    cbn. destruct (importing p psp_plugin) as [e|d]; [|auto].
    destruct (isinstance_ImportError e); [|auto].
    destruct (importing p pyepics_plugin); auto. }
  destruct Hsame as (Hf & Hb & Hr).
  split; [exact Hnone|]. split; [exact Hf|]. split; [exact Hb|].
  split; [exact Hr|].
  assert (Hrun := run_default p H1 H2). fold r in Hrun.
  destruct (importing p psp_plugin) as [e|d] eqn:Hpsp.
  - destruct (isinstance_ImportError e) eqn:He.
    + destruct (importing p pyepics_plugin) as [e'|d'] eqn:Hpy;
        inversion Hrun as [[Hatt Hbound Hraised]]; rewrite Hatt, Hraised.
      * split; [reflexivity|]. split; [split; [eauto|list_mem]|].
        intros e0 Heq. exists pyepics_plugin. split; [list_mem|congruence].
      * split; [reflexivity|]. split; [split; [eauto|list_mem]|].
        discriminate.
    + inversion Hrun as [[Hatt Hbound Hraised]]; rewrite Hatt, Hraised.
      split; [reflexivity|]. split.
      * split; [list_mem|]. intros (e' & Heq & He'). congruence.
      * intros e0 Heq. exists psp_plugin. split; [list_mem|congruence].
  - inversion Hrun as [[Hatt Hbound Hraised]]; rewrite Hatt, Hraised.
    split; [reflexivity|]. split.
    + split; [list_mem|]. intros (e' & Heq & _). discriminate.
    + discriminate.
Qed.

(** C2, as amended.  When a missing backend shows as an [ImportError],
    the load ends in an unhandled import error exactly when every
    backend its branch tries is missing: PyEPICS under "pyepics", PSP
    under "pyca", both for any other value and for the unset variable.
    So with no backend installed the load fails for every value of the
    variable, an unsupported one included, and the exception that leaves
    the module is the one raised by the last import attempted. *)
Theorem load_fails_iff_branch_backends_missing (p : Process)
    (Hmissing : missing_is_ImportError p) :
  let r := run p in
  (raises_import_error r = true <-> branch_backends_missing p = true)
  /\ (no_backend p ->
      raises_import_error r = true
      /\ exists m e, last (attempted (Py.final r)) = Some m
                     /\ importing p m = Raises e
                     /\ raised r = Some e).
Proof.
  intros r. unfold branch_backends_missing, no_backend, installed.
  destruct (decide (getenv p "PYDM_EPICS_LIB" = Some "pyepics")) as [Ha|Ha];
    [|destruct (decide (getenv p "PYDM_EPICS_LIB" = Some "pyca")) as [Hb|Hb]].
  - rewrite (bool_decide_eq_true_2 _ Ha).
    assert (Hrun := run_override p pyepics_plugin Ha). fold r in Hrun.
    unfold raises_import_error.
    destruct (importing p pyepics_plugin) as [e|d] eqn:Hpy;
      inversion Hrun as [[Hatt Hbound Hraised]]; rewrite Hatt, Hraised; cbn.
    + rewrite (Hmissing _ _ Hpy). split; [tauto|].
      intros _. split; [reflexivity|]. exists pyepics_plugin, e. auto.
    + split; [split; discriminate|]. intros [_ ?]; discriminate.
  - rewrite (bool_decide_eq_false_2 _ Ha), (bool_decide_eq_true_2 _ Hb).
    assert (Hrun := run_override p psp_plugin Hb). fold r in Hrun.
    unfold raises_import_error.
    destruct (importing p psp_plugin) as [e|d] eqn:Hpsp;
      inversion Hrun as [[Hatt Hbound Hraised]]; rewrite Hatt, Hraised; cbn.
    + rewrite (Hmissing _ _ Hpsp). split; [tauto|].
      intros _. split; [reflexivity|]. exists psp_plugin, e. auto.
    + split; [split; discriminate|]. intros [? _]; discriminate.
  - rewrite (bool_decide_eq_false_2 _ Ha), (bool_decide_eq_false_2 _ Hb).
    assert (Hrun := run_default p Ha Hb). fold r in Hrun.
    unfold raises_import_error.
    destruct (importing p psp_plugin) as [e|d] eqn:Hpsp.
    + rewrite (Hmissing _ _ Hpsp) in Hrun.
      destruct (importing p pyepics_plugin) as [e'|d'] eqn:Hpy;
        inversion Hrun as [[Hatt Hbound Hraised]]; rewrite Hatt, Hraised; cbn.
      * rewrite (Hmissing _ _ Hpy). split; [tauto|].
        intros _. split; [reflexivity|]. exists pyepics_plugin, e'. auto.
      * split; [split; discriminate|]. intros [_ ?]; discriminate.
    + inversion Hrun as [[Hatt Hbound Hraised]]; rewrite Hatt, Hraised; cbn.
      split; [split; discriminate|]. intros [? _]; discriminate.
Qed.

(** C2, as stated, fails: with [PYDM_EPICS_LIB] set to "pyepics", the
    PSP backend installed and PyEPICS missing, the load ends in an
    unhandled import error although a backend is installed and the
    override is a supported one. *)
Lemma forced_pyepics_fails_with_psp_installed :
  let p := process (Some "pyepics") (Defines ∅) (Raises ModuleNotFoundError) in
  raises_import_error (run p) = true
  /\ installed p psp_plugin = true
  /\ ~ (no_backend p /\ unsupported_override p).
Proof.
  cbv zeta. split; [reflexivity|]. split; [reflexivity|].
  intros [[Hpsp _] _]. discriminate Hpsp.
Qed.

Lemma load_fails_iff_branch_backends_missing_witness :
  let p := process (Some "foo") (Raises ImportError) (Raises ModuleNotFoundError) in
  missing_is_ImportError p
  /\ no_backend p
  /\ raised (run p) = Some ModuleNotFoundError.
Proof.
  cbv zeta.
  assert (Hmissing : missing_is_ImportError
            (process (Some "foo") (Raises ImportError) (Raises ModuleNotFoundError))).
  { intros [] e Heq; inversion Heq; reflexivity. }
  assert (Hnone : no_backend
            (process (Some "foo") (Raises ImportError) (Raises ModuleNotFoundError))).
  { split; reflexivity. }
  split; [exact Hmissing|]. split; [exact Hnone|].
  destruct (load_fails_iff_branch_backends_missing _ Hmissing) as [_ Hfail].
  destruct (Hfail Hnone) as (Hraises & m & e & Hlast & Himp & Hraised).
  rewrite Hraised. f_equal.
  inversion Hlast; subst m. inversion Himp. reflexivity.
Defined.

Lemma default_prefers_psp_then_pyepics_witness :
  let p := process None (Raises ImportError) (Defines ∅) in
  getenv p "PYDM_EPICS_LIB" = None
  /\ bound (run p) = Some PyEPICSPlugin
  /\ attempted (Py.final (run p)) = [psp_plugin; pyepics_plugin].
Proof.
  cbv zeta. split; [reflexivity|].
  destruct (default_prefers_psp_then_pyepics
              (process None (Raises ImportError) (Defines ∅)) eq_refl)
    as (_ & _ & _ & Hfallback & _).
  apply (Hfallback ImportError); reflexivity.
Defined.

Lemma explicit_override_selects_without_fallback_witness :
  let p := process (Some "pyca") (Raises ImportError) (Defines ∅) in
  getenv p "PYDM_EPICS_LIB" = Some "pyca"
  /\ attempted (Py.final (run p)) = [psp_plugin]
  /\ raised (run p) = Some ImportError.
Proof.
  cbv zeta. split; [reflexivity|].
  destruct (explicit_override_selects_without_fallback
              (process (Some "pyca") (Raises ImportError) (Defines ∅))
              psp_plugin eq_refl) as [Hatt [_ Hraised]].
  split; [exact Hatt | exact Hraised].
Defined.

Lemma protocol_is_ca_witness :
  let p := process (Some "pyepics") (Raises ImportError)
             (Defines {[ "protocol" := "pva" ]}) in
  exists st g, run p = (st, inr g)
               /\ EPICSPlugin g = PyEPICSPlugin
               /\ getattr st PyEPICSPlugin "protocol" = Some "ca".
Proof.
  cbv zeta. eexists _, _. split; [reflexivity|]. split; [reflexivity|].
  apply (protocol_is_ca
           (process (Some "pyepics") (Raises ImportError)
              (Defines {[ "protocol" := "pva" ]})) _ _ eq_refl).
Defined.

Lemma unrecognised_value_like_unset_witness :
  let p := process (Some "PyEPICS") (Defines ∅) (Defines ∅) in
  getenv p "PYDM_EPICS_LIB" = Some "PyEPICS"
  /\ bound (run p) = bound (run (unset_lib p))
  /\ raised (run p) = raised (run (unset_lib p)).
Proof.
  cbv zeta. split; [reflexivity|].
  destruct (unrecognised_value_like_unset
              (process (Some "PyEPICS") (Defines ∅) (Defines ∅)) "PyEPICS"
              eq_refl ltac:(discriminate) ltac:(discriminate))
    as (_ & _ & Hbound & Hraised & _).
  split; [exact Hbound | exact Hraised].
Defined.

End EpicsPluginFacts.

(** ** The selector in concrete installations *)

Section EpicsPluginRuns.

Import EpicsPlugin.

(** Both backends installed, variable unset: PSP is chosen and PyEPICS is
    never imported. *)
Example both_installed_unset :
  let r := run (process None (Defines ∅) (Defines ∅)) in
  bound r = Some PSPPlugin
  /\ attempted (Py.final r) = [psp_plugin]
  /\ getattr (Py.final r) PSPPlugin "protocol" = Some "ca"
  /\ getattr (Py.final r) PyEPICSPlugin "protocol" = None.
Proof. repeat split; reflexivity. Qed.

(** Only PyEPICS installed, variable unset: the fallback is taken. *)
Example only_pyepics_unset :
  let r := run (process None (Raises ModuleNotFoundError) (Defines ∅)) in
  bound r = Some PyEPICSPlugin
  /\ attempted (Py.final r) = [psp_plugin; pyepics_plugin].
Proof. split; reflexivity. Qed.

(** Only PyEPICS installed, "pyca" forced: the load fails. *)
Example only_pyepics_forced_pyca :
  let r := run (process (Some "pyca") (Raises ModuleNotFoundError) (Defines ∅)) in
  raised r = Some ModuleNotFoundError
  /\ attempted (Py.final r) = [psp_plugin].
Proof. split; reflexivity. Qed.

(** A PSP import that fails with something else than an [ImportError] is
    not caught. *)
Example psp_import_crashes :
  let r := run (process None (Raises OtherException) (Defines ∅)) in
  raised r = Some OtherException
  /\ attempted (Py.final r) = [psp_plugin].
Proof. split; reflexivity. Qed.

(** The value is compared exactly: another spelling takes the default
    branch. *)
Example other_spelling :
  let r := run (process (Some "PyEPICS") (Defines ∅) (Defines ∅)) in
  bound r = Some PSPPlugin.
Proof. reflexivity. Qed.

(** A [protocol] the class came with is overwritten. *)
Example protocol_overwritten :
  let r := run (process (Some "pyepics") (Defines ∅)
                  (Defines {[ "protocol" := "pva" ]})) in
  getattr (Py.final r) PyEPICSPlugin "protocol" = Some "ca".
Proof. reflexivity. Qed.

End EpicsPluginRuns.

(** * Properties of the multi-axis view box *)

Section MultiAxisViewBoxFacts.

Import MultiAxisViewBox.

Context {Rect QEvent : Type}.

Abbreviation ViewBox := (ViewBox Rect QEvent).
Abbreviation Event := (Event Rect QEvent).

Implicit Types (self : ViewBox) (d : Z) (e : Event).

(** What a run appended, when the final trace is known to extend the
    initial one. *)
Lemma emitted_app {A} self (r : ViewBox * (PyExc + A)) (es : list Event) :
  trace (Py.final r) = (trace self ++ es)%list -> emitted self r = es.
Proof. unfold emitted. intros ->. apply drop_app_length. Qed.

(** The pointer [scaleHistory d] leaves behind. *)
Lemma scaleHistory_unfold d self :
  scaleHistory d self =
  let s1 := record (Emit_sigHistoryChanged d) self in
  let n := Z.of_nat (length (axHistory self)) in
  let p := axHistoryPointer self in
  if n =? 0 then (s1, inr tt)
  else
    let s2 :=
      if (d =? -1) && negb (p =? -1) then set_axHistoryPointer (p - 1) s1
      else if (d =? 1) && negb (p =? n - 1) then set_axHistoryPointer (p + 1) s1
      else if d =? 0 then set_axHistoryPointer (-1) s1
      else s1 in
    if axHistoryPointer s2 =? -1 then (record Call_enableAutoRange s2, inr tt)
    else
      match py_getitem (axHistory self) (axHistoryPointer s2) with
      | Some ax => (record (Call_showAxRect ax) s2, inr tt)
      | None => (s2, inl IndexError)
      end.
Proof.
  unfold scaleHistory, call, getitem, Py.bind, Py.modify, Py.get, Py.ret,
    Py.raise.
  cbn [record axHistory axHistoryPointer].
  destruct (Z.of_nat (length (axHistory self)) =? 0); [reflexivity|].
  cbn [negb].
  destruct ((d =? -1) && negb (axHistoryPointer self =? -1));
    [|destruct ((d =? 1) && negb (axHistoryPointer self
                                   =? Z.of_nat (length (axHistory self)) - 1));
      [|destruct (d =? 0)]];
    cbn [set_axHistoryPointer record axHistory axHistoryPointer];
    match goal with |- context [?p =? -1] => destruct (p =? -1) end;
    try reflexivity;
    match goal with |- context [py_getitem ?l ?i] =>
      destruct (py_getitem l i) end; reflexivity.
Qed.

(** Splits a run of [scaleHistory] into the branches it can take. *)
Ltac history_cases :=
  rewrite scaleHistory_unfold; cbv zeta;
  repeat (unfold Py.final, Py.outcome;
          cbn [set_axHistoryPointer record axHistory axHistoryPointer
                 accepted stackedViews trace andb negb fst snd];
          match goal with
          | |- context [?a =? ?b] =>
              lazymatch a with
              | context [if _ then _ else _] => fail
              | _ => destruct (Z.eqb_spec a b)
              end
          | |- context [match py_getitem ?l ?i with _ => _ end] =>
              let Hget := fresh "Hget" in destruct (py_getitem l i) eqn:Hget
          end).

(** Computes the events of a run whose final state is explicit. *)
Ltac trace_of_run :=
  apply emitted_app; unfold Py.final;
  cbn [set_axHistoryPointer set_accepted record trace fst];
  rewrite <- ?app_assoc; reflexivity.

(** What [scaleHistory] leaves alone, and the shape of its trace: the
    notification first, then at most one call into the view. *)
Lemma scaleHistory_frame d self :
  let r := scaleHistory d self in
  axHistory (Py.final r) = axHistory self
  /\ accepted (Py.final r) = accepted self
  /\ stackedViews (Py.final r) = stackedViews self
  /\ exists es, emitted self r = Emit_sigHistoryChanged d :: es
                /\ List.filter is_sigHistoryChanged es = [].
Proof.
  cbv zeta. history_cases; unfold Py.final; cbn;
    (split; [reflexivity|]); (split; [reflexivity|]); (split; [reflexivity|]);
    eexists; (split; [trace_of_run | reflexivity]).
Qed.

(** A pointer within range stays within range, and the call returns. *)
Lemma scaleHistory_in_range d self :
  d = -1 \/ d = 0 \/ d = 1 ->
  pointer_in_range self ->
  let r := scaleHistory d self in
  let n := Z.of_nat (length (axHistory self)) in
  pointer_in_range (Py.final r)
  /\ Py.outcome r = inr tt
  /\ (d = -1 -> axHistoryPointer self = -1 ->
      axHistoryPointer (Py.final r) = -1)
  /\ (d = 1 -> axHistoryPointer self = n - 1 ->
      axHistoryPointer (Py.final r) = n - 1).
Proof.
  intros Hd Hin r n.
  destruct (scaleHistory_frame d self) as (Hhist & _).
  fold r in Hhist.
  unfold pointer_in_range in *. rewrite Hhist. fold n in Hin |- *.
  subst r n. history_cases; unfold Py.final, Py.outcome, py_getitem in *; cbn in *;
    repeat split; try lia; try reflexivity.
  all: exfalso; revert Hget.
  all: repeat match goal with
         | |- context [?a <=? ?b] => destruct (Z.leb_spec a b)
         | |- context [?a <? ?b] => destruct (Z.ltb_spec a b)
         end; cbn; try lia.
  all: intros Hnth; apply lookup_ge_None in Hnth; lia.
Qed.

(** C1. Every call [scaleHistory d] emits [sigHistoryChanged] with
    argument [d], first and once, also when the history is empty (nothing
    else happens then) and when the pointer does not move.  For [d] in
    [{-1, 0, 1}] a pointer within [-1 .. len(axHistory) - 1] stays within
    that range and the call returns; a backward step from [-1] and a
    forward step from [len(axHistory) - 1] leave the pointer where it
    is. *)
Theorem scaleHistory_clamps_and_notifies d self :
  let r := scaleHistory d self in
  let n := Z.of_nat (length (axHistory self)) in
  (head (emitted self r) = Some (Emit_sigHistoryChanged d)
   /\ List.filter is_sigHistoryChanged (emitted self r)
      = [Emit_sigHistoryChanged d])
  /\ axHistory (Py.final r) = axHistory self
  /\ (axHistory self = [] ->
      emitted self r = [Emit_sigHistoryChanged d]
      /\ axHistoryPointer (Py.final r) = axHistoryPointer self
      /\ Py.outcome r = inr tt)
  /\ (d = -1 \/ d = 0 \/ d = 1 ->
      pointer_in_range self ->
      pointer_in_range (Py.final r)
      /\ Py.outcome r = inr tt
      /\ (d = -1 -> axHistoryPointer self = -1 ->
          axHistoryPointer (Py.final r) = -1)
      /\ (d = 1 -> axHistoryPointer self = n - 1 ->
          axHistoryPointer (Py.final r) = n - 1)).
Proof.
  intros r n.
  destruct (scaleHistory_frame d self) as (Hhist & _ & _ & es & Hes & Hnone).
  fold r in Hhist, Hes.
  split; [|split; [exact Hhist|split]].
  - rewrite Hes. cbn. rewrite Hnone. auto.
  - intros Hempty. subst r. rewrite scaleHistory_unfold. cbv zeta.
    rewrite Hempty. cbn. split; [trace_of_run | auto].
  - intros Hd Hin. apply (scaleHistory_in_range d self Hd Hin).
Qed.

(** C3. For [d] in [{-1, 0, 1}] and a non-empty history: a reset
    ([d = 0]) always leaves the pointer at [-1], and so does a backward
    step from position [0]; when the updated pointer is [-1] the view
    enables auto-range; otherwise it shows [axHistory[axHistoryPointer]]
    (Python indexing), which for a pointer within range is the entry at
    that position. *)
Theorem scaleHistory_shows_pointer_target d self
    (Hd : d = -1 \/ d = 0 \/ d = 1) (Hnonempty : axHistory self <> []) :
  let r := scaleHistory d self in
  let p' := axHistoryPointer (Py.final r) in
  (d = 0 -> p' = -1)
  /\ (d = -1 -> axHistoryPointer self = 0 -> p' = -1)
  /\ (p' = -1 ->
      emitted self r = [Emit_sigHistoryChanged d; Call_enableAutoRange]
      /\ Py.outcome r = inr tt)
  /\ (p' <> -1 ->
      match py_getitem (axHistory self) p' with
      | Some ax =>
          emitted self r = [Emit_sigHistoryChanged d; Call_showAxRect ax]
          /\ Py.outcome r = inr tt
      | None =>
          emitted self r = [Emit_sigHistoryChanged d]
          /\ Py.outcome r = inl IndexError
      end)
  /\ (pointer_in_range self -> p' <> -1 ->
      exists ax, axHistory self !! Z.to_nat p' = Some ax
                 /\ emitted self r
                    = [Emit_sigHistoryChanged d; Call_showAxRect ax]
                 /\ Py.outcome r = inr tt).
Proof.
  intros r p'.
  assert (Hlen : Z.of_nat (length (axHistory self)) <> 0).
  { destruct (axHistory self); [congruence | cbn; lia]. }
  assert (Hrange := scaleHistory_in_range d self Hd).
  cbv zeta in Hrange. fold r in Hrange.
  assert (Hshow :
    p' <> -1 ->
    match py_getitem (axHistory self) p' with
    | Some ax =>
        emitted self r = [Emit_sigHistoryChanged d; Call_showAxRect ax]
        /\ Py.outcome r = inr tt
    | None =>
        emitted self r = [Emit_sigHistoryChanged d]
        /\ Py.outcome r = inl IndexError
    end).
  { subst p' r. history_cases; cbn; intros Hp; try lia;
      repeat match goal with
             | H : Some _ = Some _ |- _ => inversion H; clear H; subst
             | H : Some _ = None |- _ => discriminate H
             | H : None = Some _ |- _ => discriminate H
             end;
      (split; [trace_of_run | reflexivity]). }
  split; [|split; [|split; [|split; [exact Hshow|]]]].
  - subst p' r. history_cases; unfold Py.final; cbn; lia.
  - subst p' r. history_cases; unfold Py.final; cbn; lia.
  - subst p' r. history_cases; unfold Py.final, Py.outcome; cbn;
      intros Hp; try lia; try congruence; (split; [trace_of_run | reflexivity]).
  - intros Hin Hp. specialize (Hshow Hp).
    destruct (Hrange Hin) as (Hin' & Hret & _).
    destruct (scaleHistory_frame d self) as (Hhist & _).
    fold r in Hhist. unfold pointer_in_range in Hin'. rewrite Hhist in Hin'.
    fold p' in Hin'.
    unfold py_getitem in Hshow.
    destruct (Z.leb_spec 0 p'); [|lia].
    destruct (Z.ltb_spec p' (Z.of_nat (length (axHistory self)))); [|lia].
    cbn in Hshow.
    destruct (axHistory self !! Z.to_nat p') as [ax|] eqn:Hnth.
    + exists ax. tauto.
    + destruct Hshow as [_ Hexc].
      pose proof (eq_trans (eq_sym Hret) Hexc) as Habs. discriminate Habs.
Qed.

(** C4. [keyPressEvent] accepts the event and then: text "-" steps
    backward ([scaleHistory(-1)]); text "+" or "=" steps forward
    ([scaleHistory(1)]); failing those, the Backspace key resets
    ([scaleHistory(0)]); in these cases the event stays accepted.  Any
    other key leaves the event ignored, emits nothing and leaves the
    history pointer alone. *)
Theorem keyPressEvent_dispatch (ev : QKeyEvent) self :
  let r := keyPressEvent ev self in
  let self' := set_accepted true self in
  (text ev = "-" ->
   r = scaleHistory (-1) self' /\ accepted (Py.final r) = true)
  /\ (text ev = "+" \/ text ev = "=" ->
      r = scaleHistory 1 self' /\ accepted (Py.final r) = true)
  /\ (text ev <> "-" -> text ev <> "+" -> text ev <> "=" ->
      key ev = Key_Backspace ->
      r = scaleHistory 0 self' /\ accepted (Py.final r) = true)
  /\ (text ev <> "-" -> text ev <> "+" -> text ev <> "=" ->
      key ev <> Key_Backspace ->
      accepted (Py.final r) = false
      /\ emitted self r = []
      /\ axHistoryPointer (Py.final r) = axHistoryPointer self
      /\ Py.outcome r = inr tt).
Proof.
  intros r self'.
  assert (Hacc : forall d, accepted (Py.final (scaleHistory d self')) = true).
  { intros d. destruct (scaleHistory_frame d self') as (_ & Hacc & _).
    exact Hacc. }
  subst r. unfold keyPressEvent, Py.bind, Py.modify. fold self'.
  split; [|split; [|split]].
  - intros Hminus. rewrite (bool_decide_eq_true_2 _ Hminus). auto.
  - intros Hplus.
    rewrite bool_decide_eq_false_2 by (destruct Hplus as [-> | ->]; discriminate).
    rewrite bool_decide_eq_true_2
      by (rewrite !elem_of_cons; tauto).
    auto.
  - intros Hminus Hplus Heq Hkey.
    rewrite (bool_decide_eq_false_2 _ Hminus).
    rewrite bool_decide_eq_false_2
      by (rewrite !elem_of_cons, elem_of_nil; tauto).
    rewrite Hkey, Z.eqb_refl. auto.
  - intros Hminus Hplus Heq Hkey.
    rewrite (bool_decide_eq_false_2 _ Hminus).
    rewrite bool_decide_eq_false_2
      by (rewrite !elem_of_cons, elem_of_nil; tauto).
    destruct (Z.eqb_spec (key ev) Key_Backspace) as [|_]; [contradiction|].
    unfold Py.final, Py.outcome. cbn.
    split; [reflexivity|]. split; [|auto].
    apply emitted_app. cbn. by rewrite app_nil_r.
Qed.

(** C7. A wheel event or a mouse drag emits the view box's mouse signal
    exactly when its [axis] is [None]; the signal then comes before the
    superclass handler, which runs in every case; with an axis given the
    superclass handler is all that runs. *)
Theorem mouse_events_rebroadcast_outside_axes
    (ev : QEvent) (axis : option Z) self :
  let w := wheelEvent ev axis self in
  let m := mouseDragEvent ev axis self in
  (existsb is_mouse_signal (emitted self w) = true <-> axis = None)
  /\ (existsb is_mouse_signal (emitted self m) = true <-> axis = None)
  /\ (axis = None ->
      emitted self w
      = [Emit_sigMouseWheelZoomed ev None; Super_wheelEvent ev None]
      /\ emitted self m
         = [Emit_sigMouseDragged ev None; Super_mouseDragEvent ev None])
  /\ (axis <> None ->
      emitted self w = [Super_wheelEvent ev axis]
      /\ emitted self m = [Super_mouseDragEvent ev axis])
  /\ Py.outcome w = inr tt /\ Py.outcome m = inr tt.
Proof.
  intros w m.
  assert (Hw : emitted self w =
               if bool_decide (axis = None)
               then [Emit_sigMouseWheelZoomed ev axis; Super_wheelEvent ev axis]
               else [Super_wheelEvent ev axis]).
  { subst w. unfold wheelEvent, call, Py.bind, Py.modify, Py.ret.
    case_bool_decide; trace_of_run. }
  assert (Hm : emitted self m =
               if bool_decide (axis = None)
               then [Emit_sigMouseDragged ev axis; Super_mouseDragEvent ev axis]
               else [Super_mouseDragEvent ev axis]).
  { subst m. unfold mouseDragEvent, call, Py.bind, Py.modify, Py.ret.
    case_bool_decide; trace_of_run. }
  rewrite Hw, Hm.
  split; [|split; [|split; [|split; [|split]]]].
  - case_bool_decide; cbn; split; auto; discriminate.
  - case_bool_decide; cbn; split; auto; discriminate.
  - intros ->. auto.
  - intros Hax. rewrite (bool_decide_eq_false_2 _ Hax). auto.
  - subst w. unfold wheelEvent, call, Py.bind, Py.modify, Py.ret.
    case_bool_decide; reflexivity.
  - subst m. unfold mouseDragEvent, call, Py.bind, Py.modify, Py.ret.
    case_bool_decide; reflexivity.
Qed.

(** The calls one pass of the loop makes for one stacked view. *)
Lemma for_each_stacked_view (views : list positive) self :
  let body := fun view : positive =>
    (self <- Py.get ;;
     call (Call_setGeometry view (sceneBoundingRect self)) ;;;
     call (Call_linkedViewChanged view XAxis))%py in
  let r := Py.for_each views body self in
  Py.outcome r = inr tt
  /\ trace (Py.final r)
     = (trace self
        ++ List.flat_map
             (fun view => [Call_setGeometry view (sceneBoundingRect self);
                           Call_linkedViewChanged view XAxis])
             views)%list.
Proof.
  intros body r. subst r. revert self.
  assert (Hbody : forall view s,
            body view s
            = (record (Call_linkedViewChanged view XAxis)
                 (record (Call_setGeometry view (sceneBoundingRect s)) s),
               inr tt)) by reflexivity.
  clearbody body.
  induction views as [|view views IH]; intros self.
  - cbn. split; [reflexivity|]. by rewrite app_nil_r.
  - assert (Hstep : Py.for_each (view :: views) body self
                    = Py.for_each views body
                        (record (Call_linkedViewChanged view XAxis)
                           (record (Call_setGeometry view (sceneBoundingRect self))
                              self))).
    { cbn [Py.for_each]. unfold Py.bind. by rewrite Hbody. }
    rewrite Hstep. cbn [List.flat_map].
    match goal with |- context [Py.for_each views body ?s] =>
      destruct (IH s) as [Hout Htr] end.
    cbn [record trace sceneBoundingRect] in Htr.
    split; [exact Hout|]. rewrite Htr. by rewrite <- !app_assoc.
Qed.

(** C8. The [sigResized] callback is [updateStackedViews], which returns
    after calling, for every view of the stacked-view set, [setGeometry]
    with the top-level view's scene bounding rectangle and then
    [linkedViewChanged] for the x axis; the calls reach each member of the
    set and nothing else. *)
Theorem updateStackedViews_reaches_every_view self :
  let r := updateStackedViews self in
  on_sigResized self = r
  /\ Py.outcome r = inr tt
  /\ emitted self r
     = List.flat_map
         (fun view => [Call_setGeometry view (sceneBoundingRect self);
                       Call_linkedViewChanged view XAxis])
         (elements (stackedViews self))
  /\ (forall view, view ∈ stackedViews self ->
        Call_setGeometry view (sceneBoundingRect self) ∈ emitted self r
        /\ Call_linkedViewChanged view XAxis ∈ emitted self r)
  /\ (forall view rect, Call_setGeometry view rect ∈ emitted self r ->
        view ∈ stackedViews self /\ rect = sceneBoundingRect self)
  /\ length (emitted self r) = (2 * size (stackedViews self))%nat.
Proof.
  intros r.
  destruct (for_each_stacked_view (elements (stackedViews self)) self)
    as [Hout Htr].
  assert (Hem : emitted self r
     = List.flat_map
         (fun view => [Call_setGeometry view (sceneBoundingRect self);
                       Call_linkedViewChanged view XAxis])
         (elements (stackedViews self))).
  { apply emitted_app. exact Htr. }
  split.
  { subst r. unfold on_sigResized. cbn [sigResized_slots Py.for_each].
    unfold Py.bind, Py.ret.
    destruct (updateStackedViews self) as [s' [exc|[]]]; reflexivity. }
  split; [exact Hout|]. split; [exact Hem|]. rewrite Hem.
  split; [|split].
  - intros view Hin. apply elem_of_elements, list_elem_of_In in Hin.
    split; apply list_elem_of_In, in_flat_map; exists view;
      (split; [exact Hin|cbn; auto]).
  - intros view rect Hin.
    apply list_elem_of_In, in_flat_map in Hin.
    destruct Hin as (view' & Hin & Hcall). cbn in Hcall.
    destruct Hcall as [Heq | [Heq | []]]; inversion Heq; subst.
    split; [|reflexivity]. by apply elem_of_elements, list_elem_of_In.
  - unfold size, set_size. cbn. clear Hout Htr Hem.
    generalize (elements (stackedViews self)) as views.
    induction views as [|v vs IH]; cbn; [reflexivity|].
    rewrite IH. lia.
Qed.

End MultiAxisViewBoxFacts.

(** ** The view box on concrete histories

    Rectangles are numbered and mouse events carry no data. *)

Section MultiAxisViewBoxRuns.

Import MultiAxisViewBox.

Lemma scaleHistory_clamps_and_notifies_witness :
  let self := view_box (QEvent := unit) [10; 20; 30] 2 ∅ 0 in
  pointer_in_range self
  /\ axHistoryPointer (Py.final (scaleHistory 1 self)) = 2
  /\ head (emitted self (scaleHistory 1 self))
     = Some (Emit_sigHistoryChanged 1).
Proof.
  cbv zeta.
  assert (Hin : pointer_in_range
                  (view_box (QEvent := unit) [10; 20; 30] 2 ∅ 0)).
  { unfold pointer_in_range. cbn. lia. }
  split; [exact Hin|].
  destruct (scaleHistory_clamps_and_notifies 1
              (view_box (QEvent := unit) [10; 20; 30] 2 ∅ 0))
    as ((Hhead & _) & _ & _ & Hrange).
  destruct (Hrange ltac:(auto) Hin) as (_ & _ & _ & Hforward).
  split; [|exact Hhead]. apply Hforward; reflexivity.
Defined.

Lemma scaleHistory_shows_pointer_target_witness :
  let self := view_box (QEvent := unit) [10; 20; 30] 1 ∅ 0 in
  axHistory self <> []
  /\ emitted self (scaleHistory (-1) self)
     = [Emit_sigHistoryChanged (-1); Call_showAxRect 10].
Proof.
  cbv zeta. split; [discriminate|].
  destruct (scaleHistory_shows_pointer_target (-1)
              (view_box (QEvent := unit) [10; 20; 30] 1 ∅ 0)
              ltac:(auto) ltac:(discriminate))
    as (_ & _ & _ & _ & Hshow).
  destruct Hshow as (ax & Hnth & Hem & _).
  - unfold pointer_in_range. cbn. lia.
  - vm_compute. discriminate.
  - vm_compute in Hnth. inversion Hnth; subst ax. exact Hem.
Defined.

Lemma keyPressEvent_dispatch_witness :
  let self := view_box (QEvent := unit) [10; 20; 30] 1 ∅ 0 in
  let ev := {| text := "="; key := 61 |} in
  keyPressEvent ev self = scaleHistory 1 (set_accepted true self)
  /\ accepted (Py.final (keyPressEvent ev self)) = true.
Proof.
  cbv zeta.
  destruct (keyPressEvent_dispatch {| text := "="; key := 61 |}
              (view_box (QEvent := unit) [10; 20; 30] 1 ∅ 0))
    as (_ & Hplus & _).
  apply Hplus. right. reflexivity.
Defined.

Lemma mouse_events_rebroadcast_outside_axes_witness :
  let self := view_box (Rect := Z) [] (-1) ∅ 0 in
  emitted self (wheelEvent tt (Some 1) self) = [Super_wheelEvent tt (Some 1)]
  /\ emitted self (mouseDragEvent tt (Some 1) self)
     = [Super_mouseDragEvent tt (Some 1)].
Proof.
  cbv zeta.
  destruct (mouse_events_rebroadcast_outside_axes tt (Some 1)
              (view_box (Rect := Z) [] (-1) ∅ 0))
    as (_ & _ & _ & Haxis & _).
  apply Haxis. discriminate.
Defined.

Lemma updateStackedViews_reaches_every_view_witness :
  let self := view_box (QEvent := unit) [] (-1)
                {[ 1%positive; 2%positive ]} 7 in
  2%positive ∈ stackedViews self
  /\ Call_setGeometry 2%positive 7
       ∈ emitted self (updateStackedViews self)
  /\ Call_linkedViewChanged 2%positive XAxis
       ∈ emitted self (updateStackedViews self).
Proof.
  cbv zeta.
  assert (Hin : 2%positive ∈ stackedViews
                  (view_box (QEvent := unit) [] (-1)
                     {[ 1%positive; 2%positive ]} 7)).
  { cbn. apply elem_of_union_r, elem_of_singleton. reflexivity. }
  split; [exact Hin|].
  destruct (updateStackedViews_reaches_every_view
              (view_box (QEvent := unit) [] (-1)
                 {[ 1%positive; 2%positive ]} 7))
    as (_ & _ & _ & Hall & _).
  exact (Hall 2%positive Hin).
Defined.

(** A forward step at the newest entry stays there and shows it again. *)
Example forward_at_newest_entry :
  let self := view_box (QEvent := unit) [10; 20; 30] 2 ∅ 0 in
  scaleHistory 1 self
  = ({| axHistory := [10; 20; 30]; axHistoryPointer := 2;
        stackedViews := ∅; sceneBoundingRect := 0; accepted := false;
        trace := [Emit_sigHistoryChanged 1; Call_showAxRect 30] |},
     inr tt).
Proof. reflexivity. Qed.

(** A backward step from the oldest entry returns to auto-range. *)
Example backward_from_oldest_entry :
  let self := view_box (QEvent := unit) [10; 20; 30] 0 ∅ 0 in
  scaleHistory (-1) self
  = ({| axHistory := [10; 20; 30]; axHistoryPointer := -1;
        stackedViews := ∅; sceneBoundingRect := 0; accepted := false;
        trace := [Emit_sigHistoryChanged (-1); Call_enableAutoRange] |},
     inr tt).
Proof. reflexivity. Qed.

(** With no history only the notification goes out. *)
Example reset_without_history :
  let self := view_box (Rect := Z) (QEvent := unit) [] (-1) ∅ 0 in
  emitted self (scaleHistory 0 self) = [Emit_sigHistoryChanged 0].
Proof. reflexivity. Qed.

(** A pointer past the end of the history makes the lookup raise, after
    the notification went out. *)
Example forward_past_the_end :
  let self := view_box (QEvent := unit) [10; 20; 30] 5 ∅ 0 in
  Py.outcome (scaleHistory 1 self) = inl IndexError
  /\ emitted self (scaleHistory 1 self) = [Emit_sigHistoryChanged 1].
Proof. split; reflexivity. Qed.

(** Backspace resets; a letter is left to the ancestors. *)
Example backspace_then_letter :
  let self := view_box (QEvent := unit) [10; 20; 30] 1 ∅ 0 in
  emitted self (keyPressEvent {| text := String (Ascii.ascii_of_nat 8) EmptyString; key := Key_Backspace |} self)
  = [Emit_sigHistoryChanged 0; Call_enableAutoRange]
  /\ keyPressEvent {| text := "a"; key := 65 |} self = (self, inr tt).
Proof. split; reflexivity. Qed.

(** A wheel event over the plot area is re-broadcast first. *)
Example wheel_over_plot_area :
  let self := view_box (Rect := Z) [] (-1) ∅ 0 in
  emitted self (wheelEvent tt None self)
  = [Emit_sigMouseWheelZoomed tt None; Super_wheelEvent tt None].
Proof. reflexivity. Qed.

(** Two stacked views are both resized and re-linked, in the order the
    set yields them. *)
Example resize_two_stacked_views :
  let self := view_box (QEvent := unit) [] (-1)
                {[ 1%positive; 2%positive ]} 7 in
  emitted self (updateStackedViews self)
  = [Call_setGeometry 2%positive 7; Call_linkedViewChanged 2%positive 0;
     Call_setGeometry 1%positive 7; Call_linkedViewChanged 1%positive 0].
Proof. vm_compute. reflexivity. Qed.

End MultiAxisViewBoxRuns.

(** * Further properties of the backend selector *)

Section EpicsPluginLoads.

Import EpicsPlugin.

(** Every run has one of two shapes: the last import attempted defined
    its class, which is then the only class object and carries the
    protocol tag; or the last import attempted raised, and no class
    object exists.  The imports attempted are one module, or the PSP
    plugin followed by the PyEPICS plugin. *)
Lemma run_shape (p : Process) :
  exists tried m,
    (tried = [m] \/ (tried = [psp_plugin; pyepics_plugin] /\ m = pyepics_plugin))
    /\ ((exists d, importing p m = Defines d
                   /\ run p = ({| attempted := tried;
                                  classes := {[ class_of m
                                                := <["protocol" := "ca"]> d ]} |},
                               inr {| EPICS_LIB := getenv p "PYDM_EPICS_LIB";
                                      EPICSPlugin := class_of m |}))
        \/ (exists e, importing p m = Raises e
                      /\ run p = ({| attempted := tried; classes := ∅ |},
                                  inl e))).
Proof.
  assert (Hheap : forall (c : PluginClass) (d : gmap string string),
            let heap : gmap PluginClass (gmap string string) := <[c := d]> ∅ in
            <[c := <["protocol" := "ca"]> (default ∅ (heap !! c))]> heap
            = {[ c := <["protocol" := "ca"]> d ]}).
  { intros c d. cbv zeta. rewrite lookup_insert_eq. cbn.
    rewrite insert_insert_eq. apply insert_empty. }
  cbv zeta in Hheap.
  unfold run, load, Py.try_except_ImportError, Py.bind, import_from,
    setattr, Py.modify, Py.ret.
  cbn [fresh attempted classes app].
  destruct (bool_decide (getenv p "PYDM_EPICS_LIB" = Some "pyepics"));
    [|destruct (bool_decide (getenv p "PYDM_EPICS_LIB" = Some "pyca"))].
  - exists [pyepics_plugin], pyepics_plugin. split; [auto|].
    destruct (importing p pyepics_plugin) as [e|d]; [right|left]; eexists;
      (split; [reflexivity|]); cbn [attempted classes]; rewrite ?Hheap;
      reflexivity.
  - exists [psp_plugin], psp_plugin. split; [auto|].
    destruct (importing p psp_plugin) as [e|d]; [right|left]; eexists;
      (split; [reflexivity|]); cbn [attempted classes]; rewrite ?Hheap;
      reflexivity.
  - destruct (importing p psp_plugin) as [e|d] eqn:Hpsp.
    + destruct (isinstance_ImportError e).
      * exists [psp_plugin; pyepics_plugin], pyepics_plugin. split; [auto|].
        cbn [attempted classes app].
        destruct (importing p pyepics_plugin) as [e'|d']; [right|left];
          eexists; (split; [reflexivity|]); cbn [attempted classes];
          rewrite ?Hheap; reflexivity.
      * exists [psp_plugin], psp_plugin. split; [auto|]. right.
        exists e. split; [exact Hpsp | reflexivity].
    + exists [psp_plugin], psp_plugin. split; [auto|]. left.
      exists d. split; [exact Hpsp|]. cbn [attempted classes].
      rewrite Hheap. reflexivity.
Qed.

(** X1. In every process the load attempts one or two imports, never the
    same module twice, and its outcome is the outcome of the last import
    attempted: [EPICSPlugin] is bound to that module's class when it
    loaded, and its exception leaves the module when it raised. *)
Theorem load_outcome_is_last_import (p : Process) :
  let r := run p in
  let tried := attempted (Py.final r) in
  (1 <= length tried <= 2)%nat
  /\ NoDup tried
  /\ exists m, last tried = Some m
               /\ match importing p m with
                  | Defines _ => bound r = Some (class_of m) /\ raised r = None
                  | Raises e => bound r = None /\ raised r = Some e
                  end.
Proof.
  cbv zeta.
  destruct (run_shape p) as (tried & m & Htried & Hrun).
  assert (Hlast : last tried = Some m).
  { destruct Htried as [-> | [-> ->]]; reflexivity. }
  assert (Hlen : (1 <= length tried <= 2)%nat /\ NoDup tried).
  { destruct Htried as [-> | [-> _]]; cbn; (split; [lia|]).
    - apply NoDup_singleton.
    - apply NoDup_cons. split; [|apply NoDup_singleton].
      rewrite list_elem_of_singleton. discriminate. }
  destruct Hrun as [(d & Himp & ->) | (e & Himp & ->)];
    unfold bound, raised, Py.final, Py.outcome; cbn [fst snd attempted];
    (split; [apply Hlen|]); (split; [apply Hlen|]);
    exists m; rewrite Himp; auto.
Qed.

(** X2. The load leaves at most one plugin class behind: exactly the class
    [EPICSPlugin] is bound to when it returns, and none when it raises.
    The two backends are never both loaded. *)
Theorem load_creates_only_the_selected_class (p : Process) :
  let r := run p in
  dom (classes (Py.final r))
  = match bound r with
    | Some c => {[ c ]}
    | None => ∅
    end.
Proof.
  cbv zeta.
  destruct (run_shape p) as (tried & m & _ & Hrun).
  destruct Hrun as [(d & _ & ->) | (e & _ & ->)];
    unfold bound, Py.final, Py.outcome; cbn [fst snd classes EPICSPlugin].
  - apply dom_singleton_L.
  - apply dom_empty_L.
Qed.

(** X3. When the load returns, the class [EPICSPlugin] is bound to is the
    one its plugin module defined, and every attribute other than
    [protocol] still has the value the module gave it. *)
Theorem load_preserves_other_attributes (p : Process)
    (st : Interp) (g : Globals) (Hok : run p = (st, inr g)) :
  exists m d,
    class_of m = EPICSPlugin g
    /\ importing p m = Defines d
    /\ forall attr, attr <> "protocol" ->
                    getattr st (EPICSPlugin g) attr = d !! attr.
Proof.
  destruct (run_shape p) as (tried & m & _ & Hrun).
  destruct Hrun as [(d & Himp & Hrun) | (e & _ & Hrun)];
    rewrite Hrun in Hok; [|discriminate].
  inversion Hok; subst st g; clear Hok. cbn [EPICSPlugin].
  exists m, d. split; [reflexivity|]. split; [exact Himp|].
  intros attr Hattr. unfold getattr. cbn [classes].
  rewrite lookup_singleton_eq. cbn.
  by apply lookup_insert_ne.
Qed.

(** X4. With both backends installed the load returns for every value of
    [PYDM_EPICS_LIB], after a single import: it binds [PyEPICSPlugin]
    when the value is exactly "pyepics" and [PSPPlugin] in every other
    case, the unset one included. *)
Theorem both_installed_never_fails (p : Process)
    (Hpsp : installed p psp_plugin = true)
    (Hpyepics : installed p pyepics_plugin = true) :
  let r := run p in
  raised r = None
  /\ length (attempted (Py.final r)) = 1%nat
  /\ bound r = Some (if bool_decide (getenv p "PYDM_EPICS_LIB" = Some "pyepics")
                     then PyEPICSPlugin else PSPPlugin).
Proof.
  intros r. unfold installed in *.
  destruct (decide (getenv p "PYDM_EPICS_LIB" = Some "pyepics")) as [Ha|Ha];
    [|destruct (decide (getenv p "PYDM_EPICS_LIB" = Some "pyca")) as [Hb|Hb]].
  - rewrite (bool_decide_eq_true_2 _ Ha).
    assert (Hrun := run_override p pyepics_plugin Ha). fold r in Hrun.
    destruct (importing p pyepics_plugin); [discriminate|].
    inversion Hrun as [[Hatt Hbound Hraised]]. rewrite Hatt. auto.
  - rewrite (bool_decide_eq_false_2 _ Ha).
    assert (Hrun := run_override p psp_plugin Hb). fold r in Hrun.
    destruct (importing p psp_plugin); [discriminate|].
    inversion Hrun as [[Hatt Hbound Hraised]]. rewrite Hatt. auto.
  - rewrite (bool_decide_eq_false_2 _ Ha).
    assert (Hrun := run_default p Ha Hb). fold r in Hrun.
    destruct (importing p psp_plugin); [discriminate|].
    inversion Hrun as [[Hatt Hbound Hraised]]. rewrite Hatt. auto.
Qed.

(** X5. The load returns exactly when the backend its branch selects can
    be imported: PyEPICS under "pyepics"; PSP under "pyca"; otherwise PSP,
    or PyEPICS provided the PSP import failed with an [ImportError].  A
    PSP import that fails with any other exception makes the load fail
    even when PyEPICS is installed. *)
Theorem load_returns_iff (p : Process) :
  raised (run p) = None <->
  if bool_decide (getenv p "PYDM_EPICS_LIB" = Some "pyepics") then
    installed p pyepics_plugin = true
  else if bool_decide (getenv p "PYDM_EPICS_LIB" = Some "pyca") then
    installed p psp_plugin = true
  else
    installed p psp_plugin = true
    \/ ((exists e, importing p psp_plugin = Raises e
                   /\ isinstance_ImportError e = true)
        /\ installed p pyepics_plugin = true).
Proof.
  unfold installed.
  destruct (decide (getenv p "PYDM_EPICS_LIB" = Some "pyepics")) as [Ha|Ha];
    [|destruct (decide (getenv p "PYDM_EPICS_LIB" = Some "pyca")) as [Hb|Hb]].
  - rewrite (bool_decide_eq_true_2 _ Ha).
    assert (Hrun := run_override p pyepics_plugin Ha).
    destruct (importing p pyepics_plugin);
      inversion Hrun as [[Hatt Hbound Hraised]]; split; intros; congruence.
  - rewrite (bool_decide_eq_false_2 _ Ha), (bool_decide_eq_true_2 _ Hb).
    assert (Hrun := run_override p psp_plugin Hb).
    destruct (importing p psp_plugin);
      inversion Hrun as [[Hatt Hbound Hraised]]; split; intros; congruence.
  - rewrite (bool_decide_eq_false_2 _ Ha), (bool_decide_eq_false_2 _ Hb).
    assert (Hrun := run_default p Ha Hb).
    destruct (importing p psp_plugin) as [e|d] eqn:Hpsp.
    + destruct (isinstance_ImportError e) eqn:He.
      * destruct (importing p pyepics_plugin) as [e'|d'];
          inversion Hrun as [[Hatt Hbound Hraised]]; split.
        -- congruence.
        -- intros [Habs | [_ Habs]]; discriminate.
        -- intros _. right. split; [eauto | reflexivity].
        -- congruence.
      * inversion Hrun as [[Hatt Hbound Hraised]]. split; [congruence|].
        intros [Habs | [(e' & Heq & He') _]]; [discriminate|].
        inversion Heq; subst e'. congruence.
    + inversion Hrun as [[Hatt Hbound Hraised]]. split; auto.
Qed.

Lemma load_preserves_other_attributes_witness :
  let p := process None (Raises ImportError)
             (Defines {[ "protocol" := "pva"; "name" := "pyepics" ]}) in
  exists st g, run p = (st, inr g)
               /\ getattr st (EPICSPlugin g) "name" = Some "pyepics".
Proof.
  cbv zeta. eexists _, _. split; [reflexivity|].
  destruct (load_preserves_other_attributes
              (process None (Raises ImportError)
                 (Defines {[ "protocol" := "pva"; "name" := "pyepics" ]}))
              _ _ eq_refl) as (m & d & Hclass & Himp & Hattrs).
  rewrite (Hattrs "name") by discriminate.
  destruct m; [vm_compute in Hclass; discriminate Hclass|].
  inversion Himp; subst d. reflexivity.
Defined.

Lemma both_installed_never_fails_witness :
  let p := process (Some "pyepics") (Defines ∅) (Defines ∅) in
  installed p psp_plugin = true
  /\ installed p pyepics_plugin = true
  /\ bound (run p) = Some PyEPICSPlugin.
Proof.
  cbv zeta. split; [reflexivity|]. split; [reflexivity|].
  apply (both_installed_never_fails
           (process (Some "pyepics") (Defines ∅) (Defines ∅))
           eq_refl eq_refl).
Defined.

End EpicsPluginLoads.

(** * Further properties of the multi-axis view box *)

Section MultiAxisViewBoxSteps.

Import MultiAxisViewBox.

Context {Rect QEvent : Type}.

Abbreviation ViewBox := (ViewBox Rect QEvent).
Abbreviation Event := (Event Rect QEvent).

Implicit Types (self : ViewBox) (d : Z) (e : Event).

(** A statement that returns hands its state on to the next one. *)
Lemma bind_returns {S A B} (m : Py.M S A) (k : A -> Py.M S B) (s : S) (a : A) :
  Py.outcome (m s) = inr a ->
  Py.bind m k s = k a (Py.final (m s)).
Proof.
  unfold Py.bind, Py.outcome, Py.final.
  destruct (m s) as [s' [exc|a']]; cbn; [discriminate|].
  by intros [= ->].
Qed.

(** Branch by branch through one call of [scaleHistory]. *)
Ltac step_cases :=
  rewrite scaleHistory_unfold; cbv zeta;
  repeat (unfold Py.final, Py.outcome;
          cbn [set_axHistoryPointer record axHistory axHistoryPointer
                 accepted stackedViews trace andb negb fst snd];
          match goal with
          | |- context [?a =? ?b] =>
              lazymatch a with
              | context [if _ then _ else _] => fail
              | _ => destruct (Z.eqb_spec a b)
              end
          | |- context [match py_getitem ?l ?i with _ => _ end] =>
              let Hget := fresh "Hget" in destruct (py_getitem l i) eqn:Hget
          end).

(** The pointer after one call, read off the branches. *)
Lemma scaleHistory_pointer_step d self :
  let n := Z.of_nat (length (axHistory self)) in
  let p := axHistoryPointer self in
  axHistoryPointer (Py.final (scaleHistory d self))
  = if n =? 0 then p
    else if (d =? -1) && negb (p =? -1) then p - 1
    else if (d =? 1) && negb (p =? n - 1) then p + 1
    else if d =? 0 then -1
    else p.
Proof.
  cbv zeta. step_cases; cbn; try reflexivity; lia.
Qed.

(** The trace after one call extends the trace before it: by the
    notification, then at most one call into the view. *)
Lemma scaleHistory_trace_step d self :
  exists es,
    trace (Py.final (scaleHistory d self))
    = (trace self ++ Emit_sigHistoryChanged d :: es)%list
    /\ List.filter is_sigHistoryChanged es = []
    /\ (length es <= 1)%nat.
Proof.
  step_cases; cbn; rewrite <- ?app_assoc; cbn;
    eexists; (split; [reflexivity|]); cbn; auto.
Qed.

(** Python's [l[i]] fails exactly outside [-len(l) .. len(l) - 1]. *)
Lemma py_getitem_None {A} (l : list A) (i : Z) :
  py_getitem l i = None <->
  i < - Z.of_nat (length l) \/ Z.of_nat (length l) <= i.
Proof.
  unfold py_getitem.
  destruct (Z.leb_spec 0 i); destruct (Z.ltb_spec i (Z.of_nat (length l)));
    destruct (Z.leb_spec (- Z.of_nat (length l)) i);
    destruct (Z.ltb_spec i 0); cbn [andb];
    rewrite ?lookup_ge_None; split; intros; try lia; try reflexivity;
    try discriminate.
Qed.

(** A negative index within range counts from the end of the list. *)
Lemma py_getitem_negative {A} (l : list A) (i : Z) :
  - Z.of_nat (length l) <= i < 0 ->
  py_getitem l i = l !! Z.to_nat (Z.of_nat (length l) + i).
Proof.
  intros Hi. unfold py_getitem.
  destruct (Z.leb_spec 0 i); [lia|]. cbn [andb].
  destruct (Z.leb_spec (- Z.of_nat (length l)) i); [|lia].
  destruct (Z.ltb_spec i 0); [|lia]. reflexivity.
Qed.

(** With a history, one call ends in one of three ways, decided by the
    pointer it leaves behind. *)
Lemma scaleHistory_view_call d self :
  axHistory self <> [] ->
  let r := scaleHistory d self in
  let p' := axHistoryPointer (Py.final r) in
  (p' = -1 /\ Py.outcome r = inr tt
   /\ emitted self r = [Emit_sigHistoryChanged d; Call_enableAutoRange])
  \/ (p' <> -1
      /\ exists ax, py_getitem (axHistory self) p' = Some ax
                    /\ Py.outcome r = inr tt
                    /\ emitted self r
                       = [Emit_sigHistoryChanged d; Call_showAxRect ax])
  \/ (p' <> -1 /\ py_getitem (axHistory self) p' = None
      /\ Py.outcome r = inl IndexError
      /\ emitted self r = [Emit_sigHistoryChanged d]).
Proof.
  intros Hne.
  assert (Hlen : Z.of_nat (length (axHistory self)) <> 0).
  { destruct (axHistory self); [congruence | cbn; lia]. }
  cbv zeta. unfold emitted.
  step_cases; try contradiction; cbn;
    rewrite <- ?app_assoc, ?drop_app_length; cbn;
    repeat match goal with
           | H : Some _ = Some _ |- _ => inversion H; clear H; subst
           | H : Some _ = None |- _ => discriminate H
           | H : None = Some _ |- _ => discriminate H
           end;
    first [ left; split; [reflexivity || lia|]; split; reflexivity
          | right; left; split; [assumption || lia|]; eexists;
            split; [eassumption || reflexivity|]; split; reflexivity
          | right; right; split; [assumption || lia|];
            split; [assumption || reflexivity|]; split; reflexivity ].
Qed.

(** The pointer after one call from a pointer within range. *)
Lemma scaleHistory_pointer_closed d self :
  pointer_in_range self ->
  let n := Z.of_nat (length (axHistory self)) in
  let p := axHistoryPointer self in
  let p' := axHistoryPointer (Py.final (scaleHistory d self)) in
  (d = 1 -> p' = Z.min (p + 1) (n - 1))
  /\ (d = -1 -> p' = Z.max (p - 1) (-1))
  /\ (d = 0 -> p' = -1)
  /\ (d <> 1 -> d <> -1 -> d <> 0 -> p' = p).
Proof.
  intros Hin n p p'. subst p'. rewrite scaleHistory_pointer_step. cbv zeta.
  fold n p. unfold pointer_in_range in Hin. fold n p in Hin.
  destruct (Z.eqb_spec n 0); destruct (Z.eqb_spec d (-1));
    destruct (Z.eqb_spec d 1); destruct (Z.eqb_spec d 0);
    destruct (Z.eqb_spec p (-1)); destruct (Z.eqb_spec p (n - 1));
    cbn [andb negb]; repeat split; intros; lia.
Qed.

(** X6. From a pointer within range, a forward step moves the pointer up
    by one but not past the newest entry, a backward step moves it down by
    one but not below [-1], a reset sets it to [-1], and any other
    argument leaves it where it is. *)
Theorem scaleHistory_pointer_closed_form d self
    (Hin : pointer_in_range self) :
  let n := Z.of_nat (length (axHistory self)) in
  let p := axHistoryPointer self in
  let p' := axHistoryPointer (Py.final (scaleHistory d self)) in
  (d = 1 -> p' = Z.min (p + 1) (n - 1))
  /\ (d = -1 -> p' = Z.max (p - 1) (-1))
  /\ (d = 0 -> p' = -1)
  /\ (d <> 1 -> d <> -1 -> d <> 0 -> p' = p).
Proof.
  exact (scaleHistory_pointer_closed d self Hin).
Qed.

(** X7. Within range, a forward step followed by a backward step returns
    the pointer to where it was unless it started at the newest entry,
    and a backward step followed by a forward step does unless it started
    at [-1]; both calls return. *)
Theorem scaleHistory_round_trip self (Hin : pointer_in_range self) :
  let n := Z.of_nat (length (axHistory self)) in
  let p := axHistoryPointer self in
  (p < n - 1 ->
   let r := (scaleHistory 1 ;;; scaleHistory (-1))%py self in
   Py.outcome r = inr tt /\ axHistoryPointer (Py.final r) = p)
  /\ (-1 < p ->
      let r := (scaleHistory (-1) ;;; scaleHistory 1)%py self in
      Py.outcome r = inr tt /\ axHistoryPointer (Py.final r) = p).
Proof.
  intros n p.
  assert (Hstep : forall d1 d2,
            d1 = -1 \/ d1 = 0 \/ d1 = 1 -> d2 = -1 \/ d2 = 0 \/ d2 = 1 ->
            let s1 := Py.final (scaleHistory d1 self) in
            (scaleHistory d1 ;;; scaleHistory d2)%py self = scaleHistory d2 s1
            /\ pointer_in_range s1
            /\ Py.outcome (scaleHistory d2 s1) = inr tt
            /\ axHistory s1 = axHistory self).
  { intros d1 d2 Hd1 Hd2 s1.
    destruct (scaleHistory_in_range d1 self Hd1 Hin) as (Hin1 & Hret1 & _).
    destruct (scaleHistory_in_range d2 s1 Hd2 Hin1) as (_ & Hret2 & _).
    destruct (scaleHistory_frame d1 self) as (Hhist & _).
    split; [|auto].
    exact (bind_returns (scaleHistory d1) (fun _ => scaleHistory d2) self tt Hret1). }
  unfold pointer_in_range in Hin. fold n p in Hin.
  split; intros Hp; cbv zeta.
  - destruct (Hstep 1 (-1)) as (-> & _ & Hret & Hhist); [auto..|].
    split; [exact Hret|].
    rewrite scaleHistory_pointer_step. cbv zeta. rewrite Hhist.
    rewrite scaleHistory_pointer_step. cbv zeta. fold n p.
    destruct (Z.eqb_spec n 0); [lia|].
    change (1 =? -1) with false. change (1 =? 1) with true.
    change (-1 =? -1) with true. cbn [andb].
    destruct (Z.eqb_spec p (n - 1)); [lia|]. cbn [negb].
    destruct (Z.eqb_spec (p + 1) (-1)); [lia|]. cbn [negb]. lia.
  - destruct (Hstep (-1) 1) as (-> & _ & Hret & Hhist); [auto..|].
    split; [exact Hret|].
    rewrite scaleHistory_pointer_step. cbv zeta. rewrite Hhist.
    rewrite scaleHistory_pointer_step. cbv zeta. fold n p.
    destruct (Z.eqb_spec n 0); [lia|].
    change (1 =? -1) with false. change (1 =? 1) with true.
    change (-1 =? -1) with true. cbn [andb].
    destruct (Z.eqb_spec p (-1)); [lia|]. cbn [negb].
    destruct (Z.eqb_spec (p - 1) (n - 1)); [lia|]. cbn [negb]. lia.
Qed.

(** X8. [scaleHistory] raises [IndexError], and nothing else, exactly
    when there is a history and the pointer it has just computed lies
    outside [-len(axHistory) .. len(axHistory) - 1]; the notification has
    then already been emitted and the pointer already updated.  A pointer
    from [-len(axHistory)] to [-2] does not raise: Python indexing shows
    the entry counted from the end. *)
Theorem scaleHistory_raises_iff_pointer_outside d self :
  let r := scaleHistory d self in
  let n := Z.of_nat (length (axHistory self)) in
  let p' := axHistoryPointer (Py.final r) in
  (Py.outcome r = inl IndexError <-> n <> 0 /\ (p' < - n \/ n <= p'))
  /\ (Py.outcome r = inr tt \/ Py.outcome r = inl IndexError)
  /\ (Py.outcome r = inl IndexError ->
      emitted self r = [Emit_sigHistoryChanged d])
  /\ (n <> 0 -> - n <= p' < -1 ->
      exists ax, axHistory self !! Z.to_nat (n + p') = Some ax
                 /\ Py.outcome r = inr tt
                 /\ emitted self r
                    = [Emit_sigHistoryChanged d; Call_showAxRect ax]).
Proof.
  intros r n p'.
  destruct (axHistory self) as [|ax0 l] eqn:Hhist.
  - assert (Hr : r = (record (Emit_sigHistoryChanged d) self, inr tt)).
    { subst r. rewrite scaleHistory_unfold. cbv zeta. by rewrite Hhist. }
    assert (Hn : n = 0) by (subst n; rewrite ?Hhist; reflexivity).
    assert (Hout : Py.outcome r = inr tt) by (by rewrite Hr).
    rewrite Hout.
    split; [split; [discriminate | intros [Habs _]; contradiction]|].
    split; [auto|]. split; [discriminate|]. contradiction.
  - assert (Hne : axHistory self <> []) by (rewrite Hhist; discriminate).
    assert (Hn : 0 < n) by (subst n; cbn; lia).
    pose proof (scaleHistory_view_call d self Hne) as Hcall.
    cbv zeta in Hcall. fold r in Hcall. fold p' in Hcall.
    rewrite Hhist in Hcall.
    pose proof (py_getitem_None (ax0 :: l) p') as Hnone. fold n in Hnone.
    pose proof (py_getitem_negative (ax0 :: l) p') as Hneg. fold n in Hneg.
    destruct Hcall as [(Hp & Hret & Hem)
                      | [(Hp & ax & Hget & Hret & Hem)
                        | (Hp & Hget & Hexc & Hem)]].
    + rewrite Hret. split; [split; [discriminate | lia]|].
      split; [auto|]. split; [discriminate|]. lia.
    + rewrite Hret. split.
      { split; [discriminate|]. intros [_ Hout].
        apply Hnone in Hout. congruence. }
      split; [auto|]. split; [discriminate|].
      intros _ Hrange. exists ax. rewrite <- Hneg by lia. auto.
    + rewrite Hexc. split.
      { split; [|reflexivity]. intros _. split; [lia|]. by apply Hnone. }
      split; [auto|]. split; [auto|].
      intros _ Hrange. apply Hnone in Hget. lia.
Qed.

(** [k] calls in a row, from a pointer within range. *)
Lemma scaleHistory_times_run (k : nat) d self :
  d = -1 \/ d = 0 \/ d = 1 ->
  pointer_in_range self ->
  let n := Z.of_nat (length (axHistory self)) in
  let p := axHistoryPointer self in
  let r := scaleHistory_times k d self in
  Py.outcome r = inr tt
  /\ pointer_in_range (Py.final r)
  /\ axHistory (Py.final r) = axHistory self
  /\ axHistoryPointer (Py.final r)
     = (if d =? 1 then Z.min (p + Z.of_nat k) (n - 1)
        else if d =? -1 then Z.max (p - Z.of_nat k) (-1)
        else if Nat.eqb k 0 then p else -1)
  /\ exists es, trace (Py.final r) = (trace self ++ es)%list
                /\ List.filter is_sigHistoryChanged es
                   = replicate k (Emit_sigHistoryChanged d).
Proof.
  intros Hd. revert self. induction k as [|k IH]; intros self Hin; cbv zeta.
  - unfold scaleHistory_times, Py.final, Py.outcome. cbn.
    unfold pointer_in_range in Hin.
    split; [reflexivity|]. split; [exact Hin|]. split; [reflexivity|].
    split; [|exists []; by rewrite app_nil_r].
    destruct Hd as [-> | [-> | ->]]; cbn; lia.
  - destruct (scaleHistory_in_range d self Hd Hin) as (Hin1 & Hret1 & _).
    destruct (scaleHistory_frame d self) as (Hhist1 & _).
    destruct (scaleHistory_trace_step d self) as (es1 & Htr1 & Hes1 & _).
    pose proof (scaleHistory_pointer_closed d self Hin) as Hp1.
    set (s1 := Py.final (scaleHistory d self)) in *.
    assert (Hstep : scaleHistory_times (S k) d self = scaleHistory_times k d s1).
    { unfold scaleHistory_times. cbn [replicate Py.for_each].
      exact (bind_returns (scaleHistory d)
               (fun _ => Py.for_each (replicate k d) scaleHistory) self tt Hret1). }
    rewrite Hstep.
    destruct (IH s1 Hin1) as (Hret & Hin' & Hhist & Hp & es & Htr & Hes).
    split; [exact Hret|]. split; [exact Hin'|].
    split; [by rewrite Hhist|].
    split.
    + rewrite Hp, Hhist1. unfold pointer_in_range in Hin. cbv zeta in Hp1.
      destruct Hp1 as (Hforward & Hbackward & Hreset & _).
      destruct (Z.eqb_spec d 1) as [Hd1|Hd1];
        [rewrite Hforward by exact Hd1; lia|].
      destruct (Z.eqb_spec d (-1)) as [Hdm|Hdm];
        [rewrite Hbackward by exact Hdm; lia|].
      rewrite Hreset by lia. destruct k; reflexivity.
    + exists (Emit_sigHistoryChanged d :: es1 ++ es)%list. split.
      * rewrite Htr, Htr1. by rewrite <- app_assoc.
      * cbn. rewrite List.filter_app, Hes1, Hes. reflexivity.
Qed.

(** X9. From a pointer [p] within range, [k] backward steps in a row all
    return and leave the pointer at [max(p - k, -1)], so [p + 1] of them
    reach auto-range and further ones stay there; [k] forward steps leave
    it at [min(p + k, len(axHistory) - 1)].  Each of the [k] calls emits
    its notification. *)
Theorem scaleHistory_times_pointer (k : nat) self
    (Hin : pointer_in_range self) :
  let n := Z.of_nat (length (axHistory self)) in
  let p := axHistoryPointer self in
  let back := scaleHistory_times k (-1) self in
  let forth := scaleHistory_times k 1 self in
  (Py.outcome back = inr tt
   /\ axHistoryPointer (Py.final back) = Z.max (p - Z.of_nat k) (-1)
   /\ List.filter is_sigHistoryChanged (emitted self back)
      = replicate k (Emit_sigHistoryChanged (-1)))
  /\ (Py.outcome forth = inr tt
      /\ axHistoryPointer (Py.final forth) = Z.min (p + Z.of_nat k) (n - 1)
      /\ List.filter is_sigHistoryChanged (emitted self forth)
         = replicate k (Emit_sigHistoryChanged 1)).
Proof.
  intros n p back forth. split.
  - destruct (scaleHistory_times_run k (-1) self ltac:(auto) Hin)
      as (Hret & _ & _ & Hp & es & Htr & Hes).
    split; [exact Hret|]. split; [exact Hp|].
    subst back. by rewrite (emitted_app _ _ es Htr).
  - destruct (scaleHistory_times_run k 1 self ltac:(auto) Hin)
      as (Hret & _ & _ & Hp & es & Htr & Hes).
    split; [exact Hret|]. split; [exact Hp|].
    subst forth. by rewrite (emitted_app _ _ es Htr).
Qed.

(** One key press from a pointer within range. *)
Lemma keyPressEvent_in_range (ev : QKeyEvent) self :
  pointer_in_range self ->
  let r := keyPressEvent ev self in
  Py.outcome r = inr tt
  /\ pointer_in_range (Py.final r)
  /\ axHistory (Py.final r) = axHistory self.
Proof.
  intros Hin.
  assert (Hnav : forall d, d = -1 \/ d = 0 \/ d = 1 ->
            let r := scaleHistory d (set_accepted true self) in
            Py.outcome r = inr tt
            /\ pointer_in_range (Py.final r)
            /\ axHistory (Py.final r) = axHistory self).
  { intros d Hd.
    destruct (scaleHistory_in_range d (set_accepted true self) Hd Hin)
      as (Hin' & Hret & _).
    destruct (scaleHistory_frame d (set_accepted true self)) as (Hhist & _).
    cbv zeta. auto. }
  cbv zeta. unfold keyPressEvent, Py.bind, Py.modify.
  case_bool_decide; [apply Hnav; auto|].
  case_bool_decide; [apply Hnav; auto|].
  destruct (key ev =? Key_Backspace); [apply Hnav; auto|].
  unfold Py.outcome, Py.final. cbn. auto.
Qed.

(** X10. Whatever keys are pressed, in whatever order, a pointer that
    starts within range stays within range: every handler returns, none
    raises [IndexError], and the recorded history is left as it was. *)
Theorem keyPressEvents_keep_pointer_in_range
    (evs : list QKeyEvent) self (Hin : pointer_in_range self) :
  let r := keyPressEvents evs self in
  Py.outcome r = inr tt
  /\ pointer_in_range (Py.final r)
  /\ axHistory (Py.final r) = axHistory self.
Proof.
  revert self Hin. induction evs as [|ev evs IH]; intros self Hin; cbv zeta.
  - unfold keyPressEvents, Py.outcome, Py.final. cbn. auto.
  - destruct (keyPressEvent_in_range ev self Hin) as (Hret1 & Hin1 & Hhist1).
    assert (Hstep : keyPressEvents (ev :: evs) self
                    = keyPressEvents evs (Py.final (keyPressEvent ev self))).
    { unfold keyPressEvents. cbn [Py.for_each].
      exact (bind_returns (keyPressEvent ev)
               (fun _ => Py.for_each evs keyPressEvent) self tt Hret1). }
    rewrite Hstep.
    destruct (IH _ Hin1) as (Hret & Hin' & Hhist).
    split; [exact Hret|]. split; [exact Hin'|]. by rewrite Hhist.
Qed.

(** The calls made for distinct views are distinct. *)
Lemma stacked_view_calls_NoDup (rect : Rect) (views : list positive) :
  NoDup views ->
  NoDup (List.flat_map
           (fun view => [Call_setGeometry (QEvent := QEvent) view rect;
                         Call_linkedViewChanged view XAxis])
           views).
Proof.
  induction 1 as [|view views Hnotin Hnodup IH]; cbn [List.flat_map].
  - apply NoDup_nil_2.
  - assert (Hfresh : forall e,
              e = Call_setGeometry view rect
              \/ e = Call_linkedViewChanged view XAxis ->
              e ∉ List.flat_map
                    (fun view => [Call_setGeometry (QEvent := QEvent) view rect;
                                  Call_linkedViewChanged view XAxis])
                    views).
    { intros e He Hin. apply list_elem_of_In, in_flat_map in Hin.
      destruct Hin as (view' & Hin & Hcall). apply list_elem_of_In in Hin.
      cbn in Hcall.
      destruct He as [-> | ->]; destruct Hcall as [Heq | [Heq | []]];
        inversion Heq; subst; contradiction. }
    cbn [app]. apply NoDup_cons. split.
    + rewrite elem_of_cons. intros [Heq | Hin]; [discriminate|].
      revert Hin. apply Hfresh. auto.
    + apply NoDup_cons. split; [apply Hfresh; auto | exact IH].
Qed.

(** X11. On a resize no call is made twice, and for every stacked view
    its [setGeometry] call is immediately followed by its
    [linkedViewChanged] call. *)
Theorem updateStackedViews_calls_once_in_order self :
  let r := updateStackedViews self in
  NoDup (emitted self r)
  /\ forall view, view ∈ stackedViews self ->
       exists before after,
         emitted self r
         = (before
            ++ [Call_setGeometry view (sceneBoundingRect self);
                Call_linkedViewChanged view XAxis]
            ++ after)%list.
Proof.
  intros r.
  destruct (for_each_stacked_view (elements (stackedViews self)) self)
    as [_ Htr].
  rewrite (emitted_app self r _ Htr). split.
  - apply stacked_view_calls_NoDup, NoDup_elements.
  - intros view Hin. apply elem_of_elements in Hin.
    apply list_elem_of_split in Hin. destruct Hin as (l1 & l2 & ->).
    rewrite List.flat_map_app. eexists _, _. reflexivity.
Qed.


End MultiAxisViewBoxSteps.

(** ** Steps through a concrete history *)

Section MultiAxisViewBoxStepRuns.

Import MultiAxisViewBox.

Lemma scaleHistory_pointer_closed_form_witness :
  let self := view_box (QEvent := unit) [10; 20; 30] 2 ∅ 0 in
  pointer_in_range self
  /\ axHistoryPointer (Py.final (scaleHistory 1 self)) = 2.
Proof.
  cbv zeta.
  assert (Hin : pointer_in_range
                  (view_box (QEvent := unit) [10; 20; 30] 2 ∅ 0)).
  { unfold pointer_in_range. cbn. lia. }
  split; [exact Hin|].
  destruct (scaleHistory_pointer_closed_form 1
              (view_box (QEvent := unit) [10; 20; 30] 2 ∅ 0) Hin)
    as (Hforward & _).
  rewrite Hforward; reflexivity.
Defined.

Lemma scaleHistory_round_trip_witness :
  let self := view_box (QEvent := unit) [10; 20; 30] 1 ∅ 0 in
  pointer_in_range self
  /\ axHistoryPointer
       (Py.final ((scaleHistory 1 ;;; scaleHistory (-1))%py self)) = 1.
Proof.
  cbv zeta.
  assert (Hin : pointer_in_range
                  (view_box (QEvent := unit) [10; 20; 30] 1 ∅ 0)).
  { unfold pointer_in_range. cbn. lia. }
  split; [exact Hin|].
  destruct (scaleHistory_round_trip
              (view_box (QEvent := unit) [10; 20; 30] 1 ∅ 0) Hin)
    as (Hforward & _).
  apply Hforward. cbn. lia.
Defined.

Lemma scaleHistory_times_pointer_witness :
  let self := view_box (QEvent := unit) [10; 20; 30] 2 ∅ 0 in
  pointer_in_range self
  /\ axHistoryPointer (Py.final (scaleHistory_times 5 (-1) self)) = -1.
Proof.
  cbv zeta.
  assert (Hin : pointer_in_range
                  (view_box (QEvent := unit) [10; 20; 30] 2 ∅ 0)).
  { unfold pointer_in_range. cbn. lia. }
  split; [exact Hin|].
  destruct (scaleHistory_times_pointer 5
              (view_box (QEvent := unit) [10; 20; 30] 2 ∅ 0) Hin)
    as ((_ & Hback & _) & _).
  rewrite Hback. reflexivity.
Defined.

Lemma keyPressEvents_keep_pointer_in_range_witness :
  let self := view_box (QEvent := unit) [10; 20; 30] 0 ∅ 0 in
  let evs := [ {| text := "-"; key := 45 |};
               {| text := "-"; key := 45 |};
               {| text := "="; key := 61 |};
               {| text := "a"; key := 65 |} ] in
  pointer_in_range self
  /\ Py.outcome (keyPressEvents evs self) = inr tt
  /\ pointer_in_range (Py.final (keyPressEvents evs self)).
Proof.
  cbv zeta.
  assert (Hin : pointer_in_range
                  (view_box (QEvent := unit) [10; 20; 30] 0 ∅ 0)).
  { unfold pointer_in_range. cbn. lia. }
  split; [exact Hin|].
  destruct (keyPressEvents_keep_pointer_in_range
              [ {| text := "-"; key := 45 |};
                {| text := "-"; key := 45 |};
                {| text := "="; key := 61 |};
                {| text := "a"; key := 65 |} ]
              (view_box (QEvent := unit) [10; 20; 30] 0 ∅ 0) Hin)
    as (Hret & Hin' & _).
  split; [exact Hret | exact Hin'].
Defined.

(** A pointer left at [-2] shows the entry before the newest one. *)
Example pointer_counted_from_the_end :
  let self := view_box (QEvent := unit) [10; 20; 30] (-3) ∅ 0 in
  scaleHistory 1 self
  = ({| axHistory := [10; 20; 30]; axHistoryPointer := -2;
        stackedViews := ∅; sceneBoundingRect := 0; accepted := false;
        trace := [Emit_sigHistoryChanged 1; Call_showAxRect 20] |},
     inr tt).
Proof. reflexivity. Qed.

(** An argument outside [-1], [0], [1] moves nothing and shows the
    current entry again. *)
Example other_argument_shows_again :
  let self := view_box (QEvent := unit) [10; 20; 30] 1 ∅ 0 in
  scaleHistory 7 self
  = ({| axHistory := [10; 20; 30]; axHistoryPointer := 1;
        stackedViews := ∅; sceneBoundingRect := 0; accepted := false;
        trace := [Emit_sigHistoryChanged 7; Call_showAxRect 20] |},
     inr tt).
Proof. reflexivity. Qed.

End MultiAxisViewBoxStepRuns.
